(** * MockMate: question generation and answer scoring

    A shallow embedding of [interviewapp/qgen_groq.py],
    [interviewapp/nlp_utils.py], [interviewapp/views_helpers.py], and of
    the question set-up, answer and summary paths of
    [interviewapp/views.py] (with the [forms.py] and [models.py] parts
    they use: the question table, the answer rows, [AnswerForm]).

    Python [str] values are lists of Unicode code points ([pystr]).
    Python exceptions are the [Raise] branch of [pyres].  The remote
    text-generation service, the spaCy tokenizer and the [random] module
    are inputs of the model (oracles), so a theorem that quantifies over
    them covers every behaviour they can have. *)

From Stdlib Require Import String Ascii List ZArith Bool Lia Permutation Sorted.
Import ListNotations.

Open Scope Z_scope.
Set Warnings "-register-all".

(* ------------------------------------------------------------------ *)
(** ** Python strings *)

Definition pystr := list Z.

(** [not l] on a Python sequence. *)
Definition null {A : Type} (l : list A) : bool :=
  match l with [] => true | _ => false end.

(** UTF-8 decoding of a byte sequence into code points. *)
Fixpoint utf8_decode (bs : list Z) : pystr :=
  match bs with
  | [] => []
  | b0 :: r =>
      if b0 <? 128 then b0 :: utf8_decode r
      else if b0 <? 224 then
        match r with
        | b1 :: r' => ((b0 - 192) * 64 + (b1 - 128)) :: utf8_decode r'
        | _ => []
        end
      else if b0 <? 240 then
        match r with
        | b1 :: b2 :: r' =>
            ((b0 - 224) * 4096 + (b1 - 128) * 64 + (b2 - 128)) :: utf8_decode r'
        | _ => []
        end
      else
        match r with
        | b1 :: b2 :: b3 :: r' =>
            ((b0 - 240) * 262144 + (b1 - 128) * 4096 + (b2 - 128) * 64 + (b3 - 128))
              :: utf8_decode r'
        | _ => []
        end
  end.

(** A string literal of the source (UTF-8 in this file), as code points. *)
Definition lit (s : string) : pystr :=
  utf8_decode (map (fun a => Z.of_nat (nat_of_ascii a)) (list_ascii_of_string s)).

(** A double-quoted literal, ["s"]. *)
Definition dq (s : string) : pystr := 34 :: lit s ++ [34].

(** [str.isspace]: the code points Python treats as whitespace. *)
Definition ws_table : list Z :=
  [9; 10; 11; 12; 13; 28; 29; 30; 31; 32; 133; 160; 5760; 8192; 8193; 8194;
   8195; 8196; 8197; 8198; 8199; 8200; 8201; 8202; 8232; 8233; 8239; 8287;
   12288].

Definition is_space (c : Z) : bool := existsb (Z.eqb c) ws_table.

(** The ranges of Unicode category Nd, which the
    regular expression class [\d] matches on [str] patterns. *)
Definition nd_ranges : list (Z * Z) :=
  [(48, 57); (1632, 1641); (1776, 1785); (1984, 1993); (2406, 2415);
   (2534, 2543); (2662, 2671); (2790, 2799); (2918, 2927); (3046, 3055);
   (3174, 3183); (3302, 3311); (3430, 3439); (3558, 3567); (3664, 3673);
   (3792, 3801); (3872, 3881); (4160, 4169); (4240, 4249); (6112, 6121);
   (6160, 6169); (6470, 6479); (6608, 6617); (6784, 6793); (6800, 6809);
   (6992, 7001); (7088, 7097); (7232, 7241); (7248, 7257); (42528, 42537);
   (43216, 43225); (43264, 43273); (43472, 43481); (43504, 43513);
   (43600, 43609); (44016, 44025); (65296, 65305); (66720, 66729);
   (68912, 68921); (69734, 69743); (69872, 69881); (69942, 69951);
   (70096, 70105); (70384, 70393); (70736, 70745); (70864, 70873);
   (71248, 71257); (71360, 71369); (71472, 71481); (71904, 71913);
   (72016, 72025); (72784, 72793); (73040, 73049); (73120, 73129);
   (92768, 92777); (92864, 92873); (93008, 93017); (120782, 120831);
   (123200, 123209); (123632, 123641); (125264, 125273); (130032, 130041)].

Definition is_digit (c : Z) : bool :=
  existsb (fun '(lo, hi) => (lo <=? c) && (c <=? hi)) nd_ranges.

(** [str.lower] on the ASCII letters.  (No character outside ASCII lowers
    to one of the ASCII words the classifier looks for; non-ASCII case
    mapping only changes which signatures coincide.) *)
Definition lower_char (c : Z) : Z := if (65 <=? c) && (c <=? 90) then c + 32 else c.
Definition lower (s : pystr) : pystr := map lower_char s.

Fixpoint is_prefix (p s : pystr) : bool :=
  match p, s with
  | [], _ => true
  | c :: p', d :: s' => (c =? d) && is_prefix p' s'
  | _ :: _, [] => false
  end.

(** [needle in hay] *)
Fixpoint contains (needle hay : pystr) : bool :=
  match hay with
  | [] => is_prefix needle []
  | _ :: hay' => is_prefix needle hay || contains needle hay'
  end.

Fixpoint lstrip (s : pystr) : pystr :=
  match s with
  | c :: s' => if is_space c then lstrip s' else s
  | [] => []
  end.

(** [str.strip()] *)
Definition strip (s : pystr) : pystr := rev (lstrip (rev (lstrip s))).

(** [str.split()] with no separator: maximal runs of non-whitespace. *)
Fixpoint split_ws_aux (s : pystr) (cur : pystr) : list pystr :=
  match s with
  | [] => match cur with [] => [] | _ => [rev cur] end
  | c :: s' =>
      if is_space c
      then match cur with
           | [] => split_ws_aux s' []
           | _ => rev cur :: split_ws_aux s' []
           end
      else split_ws_aux s' (c :: cur)
  end.
Definition split_ws (s : pystr) : list pystr := split_ws_aux s [].

(** [str.split(sep)] with a one-character separator. *)
Fixpoint split_on_aux (sep : Z) (s : pystr) (cur : pystr) : list pystr :=
  match s with
  | [] => [rev cur]
  | c :: s' => if c =? sep then rev cur :: split_on_aux sep s' []
               else split_on_aux sep s' (c :: cur)
  end.
Definition split_on (sep : Z) (s : pystr) : list pystr := split_on_aux sep s [].

Fixpoint join (sep : pystr) (l : list pystr) : pystr :=
  match l with
  | [] => []
  | [x] => x
  | x :: l' => x ++ sep ++ join sep l'
  end.

Definition pystr_eqb (a b : pystr) : bool := if list_eq_dec Z.eq_dec a b then true else false.

(** [s[:n]] for [n >= 0]. *)
Definition take (n : Z) (s : pystr) : pystr := firstn (Z.to_nat n) s.

(** [str(n)] of a Python int. *)
Fixpoint nat_digits (fuel : nat) (n : Z) (acc : pystr) : pystr :=
  match fuel with
  | O => acc
  | S f => if n <? 10 then (48 + n) :: acc
           else nat_digits f (n / 10) ((48 + n mod 10) :: acc)
  end.
Definition z_to_str (z : Z) : pystr :=
  if z <? 0 then 45 :: nat_digits (Z.to_nat (Z.log2 (- z) + 1)) (- z) []
  else nat_digits (Z.to_nat (Z.log2 z + 1)) z [].

(* ------------------------------------------------------------------ *)
(** ** Python values *)

(** The exception classes the modelled code raises or catches.
    [RequestException] stands for what [requests.post] raises (connection
    errors, timeouts); [IntegrityError] and [MultipleObjectsReturned] are
    Django's. *)
Inductive exn :=
| AttributeError | TypeError | ValueError | KeyError | IndexError | RuntimeError
| RequestException | IntegrityError | MultipleObjectsReturned.

(** The outcome of a Python call: a value, or an exception it raises. *)
Inductive pyres (A : Type) : Type :=
| Ok (a : A)
| Raise (e : exn).
Arguments Ok {A} a.
Arguments Raise {A} e.

(** Values produced by [json.loads].  JSON numbers are taken as integers;
    a number with a fraction or an exponent is outside the model (no
    property below depends on one). *)
Inductive json :=
| JNull
| JBool (b : bool)
| JInt (z : Z)
| JStr (s : pystr)
| JArr (l : list json)
| JObj (kv : list (pystr * json)).

(** [d.get(k)] on the dict [json.loads] builds: the last binding wins. *)
Definition dict_get (kv : list (pystr * json)) (k : pystr) : option json :=
  fold_left (fun acc '(k', v) => if pystr_eqb k k' then Some v else acc) kv None.

(** Python truthiness. *)
Definition truthy (j : json) : bool :=
  match j with
  | JNull => false
  | JBool b => b
  | JInt z => negb (z =? 0)
  | JStr s => negb (null s)
  | JArr l => negb (null l)
  | JObj kv => negb (null kv)
  end.

(** [repr] (string quoting with single quotes, without escapes). *)
Fixpoint py_repr (j : json) : pystr :=
  match j with
  | JNull => lit "None"
  | JBool true => lit "True"
  | JBool false => lit "False"
  | JInt z => z_to_str z
  | JStr s => 39 :: s ++ [39]
  | JArr l => 91 :: join (lit ", ") (map py_repr l) ++ [93]
  | JObj kv =>
      123 :: join (lit ", ")
        (map (fun '(k, v) => (39 :: k ++ [39]) ++ lit ": " ++ py_repr v) kv) ++ [125]
  end.

(** [str(j)] *)
Definition py_str (j : json) : pystr :=
  match j with JStr s => s | _ => py_repr j end.

(** [int(s)] on a string: surrounding whitespace, an optional sign and
    ASCII digits; anything else raises [ValueError] ([None]). *)
Definition py_int_of_str (s : pystr) : option Z :=
  let t := strip s in
  let '(sign, ds) := match t with
                     | 45 :: r => (-1, r)
                     | 43 :: r => (1, r)
                     | _ => (1, t)
                     end in
  if negb (null ds) && forallb (fun c => (48 <=? c) && (c <=? 57)) ds
  then Some (sign * fold_left (fun acc c => acc * 10 + (c - 48)) ds 0)
  else None.

(* ------------------------------------------------------------------ *)
(** ** Question items and the math classifier ([qgen_groq.py]) *)

Inductive qtype := QMath | QReasoning.

(** The normalised question dict [{text, keywords, difficulty, type}]. *)
Record qitem := mk_qitem {
  q_text : pystr;
  q_keywords : pystr;
  q_difficulty : Z;
  q_type : qtype
}.

Definition qtype_eqb (a b : qtype) : bool :=
  match a, b with
  | QMath, QMath | QReasoning, QReasoning => true
  | _, _ => false
  end.

(** [_NUMERIC_RE.search(t)]: the pattern [[-+]?\d[\d,]*(?:\.\d+)?]
    matches somewhere exactly when some character is a [\d] digit. *)
Definition numeric_search (t : pystr) : bool := existsb is_digit t.

Definition math_words : list pystr :=
  map lit ["calculate"; "compute"; "probability"; "percent"; "ratio"; "sum";
           "difference"; "distance"; "speed"; "time"; "how many";
           "what is the next number"; "series"; "expected value"; "mean";
           "median"; "mode"]%string.

Definition rupee_sign : pystr := lit "₹".

(** [_is_math_question_textual] *)
Definition is_math_question_textual (text : pystr) : bool :=
  match text with
  | [] => false
  | _ =>
      let t := lower text in
      numeric_search t
      || contains (lit "%") t || contains (lit "$") t || contains rupee_sign t
      || contains (lit "rupee") t
      || existsb (fun w => contains w t) math_words
  end.

(** [_is_math_question] on a validated dict. *)
Definition is_math_question (q : qitem) : bool :=
  qtype_eqb (q_type q) QMath || is_math_question_textual (q_text q).

(** The difficulty coercion of [_validate_question_obj]:
    [max(1, min(5, int(d)))], or 3 when [int] raises. *)
Definition coerce_difficulty (d : json) : Z :=
  let v := match d with
           | JInt z => Some z
           | JBool b => Some (if b then 1 else 0)
           | JStr s => py_int_of_str s
           | _ => None
           end in
  match v with
  | Some z => Z.max 1 (Z.min 5 z)
  | None => 3
  end.

Definition normalize_keywords (k : json) : pystr :=
  match k with
  | JArr l => join (lit ",") (map (fun x => strip (py_str x)) (filter truthy l))
  | _ => strip (py_str k)
  end.

(** [_validate_question_obj].  [obj.get('type', '').lower()] is evaluated
    on any truthy [type] before the [text] check, and raises
    [AttributeError] when the value is not a string. *)
Definition validate_question_obj (obj : json) : pyres (option qitem) :=
  match obj with
  | JObj kv =>
      let text := dict_get kv (lit "text") in
      let keywords := match dict_get kv (lit "keywords") with
                      | Some k => k | None => JStr [] end in
      let difficulty := match dict_get kv (lit "difficulty") with
                        | Some d => d | None => JInt 3 end in
      let qt : pyres pystr :=
        match dict_get kv (lit "type") with
        | Some t => if truthy t
                    then match t with JStr s => Ok (lower s) | _ => Raise AttributeError end
                    else Ok []
        | None => Ok []
        end in
      match qt with
      | Raise e => Raise e
      | Ok qt =>
          match text with
          | Some (JStr s) =>
              if null s then Ok None
              else
                let ty := if pystr_eqb qt (lit "math") then QMath
                          else if pystr_eqb qt (lit "reasoning") then QReasoning
                          else if is_math_question_textual s then QMath
                          else QReasoning in
                Ok (Some {| q_text := strip s;
                            q_keywords := normalize_keywords keywords;
                            q_difficulty := coerce_difficulty difficulty;
                            q_type := ty |})
          | _ => Ok None
          end
      end
  | _ => Ok None
  end.

Definition enrich_suffix : pystr := lit " For example: If 10 items cost 25, how much for 4?".

(** [_ensure_math_has_number] *)
Definition ensure_math_has_number (q : qitem) : qitem :=
  let text := strip (q_text q) in
  match q_type q with
  | QMath =>
      if numeric_search text then q
      else {| q_text := take 1000 (text ++ enrich_suffix);
              q_keywords := if null (q_keywords q) then lit "numbers"
                            else q_keywords q ++ lit ",numbers";
              q_difficulty := q_difficulty q;
              q_type := q_type q |}
  | QReasoning => q
  end.

(* ------------------------------------------------------------------ *)
(** ** Binary64 arithmetic

    A double is kept as the exact rational [fnum / fden].  Python's
    [int / int] and [float * int] are correctly rounded to nearest, ties
    to even; [fl64_div a b] is that rounding of [a / b] for [a >= 0],
    [b > 0] (no overflow or subnormal arises for the values below). *)

Record f64 := mk_f64 { fnum : Z; fden : Z }.

(** Round half to even of [a / b], [b > 0]. *)
Definition rne_div (a b : Z) : Z :=
  let q := a / b in
  let r := a mod b in
  if 2 * r <? b then q
  else if b <? 2 * r then q + 1
  else if Z.even q then q else q + 1.

(** [a * 2^s < c * b], for a scale [s] of either sign. *)
Definition scaled_lt (a b s c : Z) : bool :=
  if 0 <=? s then a * 2 ^ s <? c * b else a <? c * b * 2 ^ (- s).

(** The scale [s] with [2^52 <= a * 2^s / b < 2^53], for [a, b > 0]. *)
Definition f64_scale (a b : Z) : Z :=
  let s := 52 - (Z.log2 a - Z.log2 b) in
  if scaled_lt a b s (2 ^ 52) then s + 1 else s.

Definition fl64_div (a b : Z) : f64 :=
  if a <=? 0 then mk_f64 0 1
  else
    let s := f64_scale a b in
    if 0 <=? s then mk_f64 (rne_div (a * 2 ^ s) b) (2 ^ s)
    else mk_f64 (rne_div a (b * 2 ^ (- s)) * 2 ^ (- s)) 1.

(** [int(x)] on a non-negative double. *)
Definition f64_trunc (x : f64) : Z := Z.quot (fnum x) (fden x).

(* ------------------------------------------------------------------ *)
(** ** Answer scoring ([nlp_utils.py]) *)

(** The [Question] row the scorer reads: [text] and [keywords]. *)
Record question := mk_question { qs_text : pystr; qs_keywords : pystr }.

(** [{score, feedback, improvement_tips}]; tips from the service are any
    JSON values of the returned array. *)
Record evaluation := mk_evaluation {
  ev_score : Z;
  ev_feedback : pystr;
  ev_tips : list json
}.

(** Observable effects of [analyze_transcript]: running the spaCy pipeline
    on the answer, and calling the text-generation service. *)
Inductive event := ETokenize (t : pystr) | EClient (prompt : pystr).

Definition FILLERS : list pystr := map lit ["um"; "uh"; "like"; "you know"; "hmm"]%string.

(** [sum(1 for t in tokens if t in FILLERS)], [tokens] being the
    lower-cased texts of the spaCy tokens. *)
Definition filler_count (tokens : list pystr) : Z :=
  Z.of_nat (length (filter (fun t => existsb (pystr_eqb t) FILLERS) tokens)).

(** [[k.strip().lower() for k in question.keywords.split(',') if k.strip()]],
    or [[]] without a question or with empty keywords. *)
Definition keyword_list (q : option question) : list pystr :=
  match q with
  | Some qs =>
      if null (qs_keywords qs) then []
      else map (fun k => lower (strip k))
             (filter (fun k => negb (null (strip k))) (split_on 44 (qs_keywords qs)))
  | None => []
  end.

Definition matched_count (keywords : list pystr) (text : pystr) : Z :=
  Z.of_nat (length (filter (fun k => contains k (lower text)) keywords)).

(** [int((matched / max(1, len(keywords))) * 40) if keywords else 20] *)
Definition keyword_score (matched nk : Z) : Z :=
  if nk =? 0 then 20
  else
    let x := fl64_div matched (Z.max 1 nk) in
    f64_trunc (fl64_div (40 * fnum x) (fden x)).

Definition length_score (text : pystr) : Z :=
  Z.min 20 (Z.max 5 (Z.of_nat (length (split_ws text)))).

Definition grammar_score (fillers : Z) : Z := 25 - Z.min 10 (fillers * 2).

Definition filler_penalty (fillers : Z) : Z := Z.min 15 (fillers * 3).

Definition total_score (matched nk : Z) (text : pystr) (fillers : Z) : Z :=
  Z.max 0 (keyword_score matched nk + length_score text + grammar_score fillers
           - filler_penalty fillers).

Definition no_answer_feedback : pystr := lit "You did not provide an answer to this question.".

Definition no_answer_tips : list json :=
  map (fun s => JStr (lit s))
    ["Answer the question in your own words";
     "Explain the main idea clearly";
     "Add an example to support your explanation"]%string.

Definition feedback_of (word_count : Z) (keywords : list pystr) (matched fillers : Z) : pystr :=
  let p1 := if word_count <? 12
            then [lit "Your answer is very short and does not fully explain the concept."]
            else if word_count <? 25
            then [lit "Your answer explains the idea briefly, but it needs more depth."]
            else [lit "You have explained the concept reasonably well."] in
  let nk := Z.of_nat (length keywords) in
  let p2 := if negb (null keywords) && (matched =? 0)
            then [lit "Important points related to the question are missing."]
            else if negb (null keywords) && (matched <? nk)
            then [lit "Some important aspects of the topic are missing from your explanation."]
            else [] in
  let p3 := if 0 <? fillers
            then [lit "Try to reduce filler words to make your answer clearer and more confident."]
            else [] in
  join (lit " ") (p1 ++ p2 ++ p3).

Definition rule_tips_of (word_count : Z) (keywords : list pystr) (matched : Z) : list json :=
  (if word_count <? 25 then [JStr (lit "Explain the concept in 2–3 clear sentences")] else [])
  ++ (if negb (null keywords) && (matched <? Z.of_nat (length keywords))
      then [JStr (lit "Include definition, purpose, and usage")] else [])
  ++ [JStr (lit "Add a simple real-world or technical example")].

(** The prompt of [generate_ai_improvement_tips]. *)
Definition tips_prompt (answer_text question_text : pystr) (score : Z) : pystr :=
  lit "
You are an expert interview coach.

Question:
" ++ question_text ++ lit "

Candidate Answer:
" ++ answer_text ++ lit "

Score: " ++ z_to_str score ++ lit "/100

TASK:
Generate 3–5 concise, actionable improvement tips to help the candidate improve.
Tips should be:
- Specific to the answer
- Practical and short
- Focused on clarity, structure, depth, and correctness

Return ONLY a JSON array of strings.
Example:
[
  " ++ dq "Explain the concept step by step" ++ lit ",
  " ++ dq "Add a real-world example" ++ lit ",
  " ++ dq "Mention trade-offs clearly" ++ lit "
]
".

(** [generate_ai_improvement_tips]: [tips_client prompt] is what
    [json.loads] made of the bracketed part of the service's reply, or
    [None] when the call or the parse raised (both are caught). *)
Definition ai_improvement_tips (tips_client : pystr -> option json)
    (answer_text question_text : pystr) (score : Z) : list json :=
  match tips_client (tips_prompt answer_text question_text score) with
  | Some (JArr l) => firstn 5 l
  | _ => []
  end.

(** [analyze_transcript text question]; [nlp] gives the spaCy token texts. *)
Definition analyze_transcript (nlp : pystr -> list pystr)
    (tips_client : pystr -> option json)
    (text : pystr) (q : option question) : evaluation * list event :=
  if null text then
    (mk_evaluation 0 no_answer_feedback no_answer_tips, [])
  else
    let tokens := map lower (nlp text) in
    let fillers := filler_count tokens in
    let keywords := keyword_list q in
    let matched := matched_count keywords text in
    let total := total_score matched (Z.of_nat (length keywords)) text fillers in
    let word_count := Z.of_nat (length (split_ws text)) in
    let feedback := feedback_of word_count keywords matched fillers in
    let rule_tips := rule_tips_of word_count keywords matched in
    let qtext := match q with Some qs => qs_text qs | None => [] end in
    let prompt := tips_prompt text qtext total in
    let ai_tips := ai_improvement_tips tips_client text qtext total in
    (mk_evaluation total feedback (if null ai_tips then rule_tips else ai_tips),
     [ETokenize text; EClient prompt]).

(* ------------------------------------------------------------------ *)
(** ** Session suggestions ([generate_session_suggestions]) *)

(** One entry of [answers]: [{question_text, answer_text, score, feedback}];
    a [None] text is Python's [None]. *)
Record answer := mk_answer {
  a_question_text : option pystr;
  a_answer_text : option pystr;
  a_score : Z;
  a_feedback : option pystr
}.

(** What the service's reply came to: the dict [json.loads] made of the
    text from the first [{] to the last [}], or an exception (from the
    call, a missing [{], or the JSON parser), which is caught. *)
Inductive sresp := SRaise | SObject (kv : list (pystr * json)).

(** The per-answer item serialised into the prompt. *)
Definition prompt_item (a : answer) : pystr * pystr * Z * pystr :=
  let nl_to_sp := map (fun c => if c =? 10 then 32 else c) in
  (nl_to_sp (take 600 (match a_question_text a with Some s => s | None => [] end)),
   nl_to_sp (take 1000 (match a_answer_text a with Some s => s | None => [] end)),
   a_score a,
   take 300 (match a_feedback a with Some s => s | None => [] end)).

(** Stable sorts of [sorted(answers, key=score)] and of the same with
    [reverse=True] (equal scores keep their input order in both). *)
Fixpoint ins_by (ge : Z -> Z -> bool) (x : answer) (l : list answer) : list answer :=
  match l with
  | [] => [x]
  | y :: l' => if ge (a_score y) (a_score x) then y :: ins_by ge x l' else x :: l
  end.
Definition sort_by (ge : Z -> Z -> bool) (l : list answer) : list answer :=
  fold_left (fun acc x => ins_by ge x acc) l [].
Definition sort_asc := sort_by (fun y x => y <=? x).
Definition sort_desc := sort_by (fun y x => x <=? y).

(** [a.get('question_text', '')[:120]]: slicing [None] raises [TypeError]. *)
Fixpoint heads120 (l : list answer) : pyres (list json) :=
  match l with
  | [] => Ok []
  | a :: l' =>
      match a_question_text a, heads120 l' with
      | Some s, Ok r => Ok (JStr (take 120 s) :: r)
      | None, _ => Raise TypeError
      | _, Raise e => Raise e
      end
  end.

Definition fallback_tip : pystr :=
  lit "Practice weaker areas identified above; do timed mock interviews and focus on concise structure.".

Definition fallback_resources : list json :=
  map (fun s => JStr (lit s))
    ["LeetCode"; "Cracking the Coding Interview"; "Grokking the System Design Interview"]%string.

Definition k_strengths := lit "strengths".
Definition k_improvements := lit "improvements".
Definition k_overall_tip := lit "overall_tip".
Definition k_resources := lit "resources".

Definition get_or (kv : list (pystr * json)) (k : pystr) (d : json) : json :=
  match dict_get kv k with Some v => v | None => d end.

(** [generate_session_suggestions session answers]; the service sees a
    prompt built from [map prompt_item answers]. *)
Definition generate_session_suggestions
    (sclient : list (pystr * pystr * Z * pystr) -> sresp)
    (answers : list answer) : pyres (list (pystr * json)) :=
  match sclient (map prompt_item answers) with
  | SObject parsed =>
      Ok [(k_strengths, get_or parsed k_strengths (JArr []));
          (k_improvements, get_or parsed k_improvements (JArr []));
          (k_overall_tip, get_or parsed k_overall_tip (JStr []));
          (k_resources, get_or parsed k_resources (JArr []))]
  | SRaise =>
      match heads120 (firstn 3 (sort_desc answers)),
            heads120 (firstn 5 (sort_asc answers)) with
      | Ok strengths, Ok improvements =>
          Ok [(k_strengths, JArr strengths);
              (k_improvements, JArr improvements);
              (k_overall_tip, JStr fallback_tip);
              (k_resources, JArr fallback_resources)]
      | Raise e, _ => Raise e
      | _, Raise e => Raise e
      end
  end.

(* ------------------------------------------------------------------ *)
(** ** Roles, quotas and prompts ([qgen_groq.py]) *)

Inductive role_key := RTechnical | RAptitude | RHr | RBeh | RDefault.

(** [_normalize_role_key] *)
Definition normalize_role_key (role : pystr) : role_key :=
  if null role then RDefault
  else
    let r := lower role in
    if contains (lit "tech") r || contains (lit "technical") r then RTechnical
    else if contains (lit "apt") r || contains (lit "aptitude") r then RAptitude
    else if contains (lit "hr") r || contains (lit "human") r then RHr
    else if contains (lit "beh") r || contains (lit "behavior") r then RBeh
    else RDefault.

Definition role_key_str (k : role_key) : pystr :=
  match k with
  | RTechnical => lit "technical"
  | RAptitude => lit "aptitude"
  | RHr => lit "hr"
  | RBeh => lit "beh"
  | RDefault => lit "default"
  end.

(** [ROLE_MATH_RATIO], the double nearest to each literal. *)
Definition ROLE_MATH_RATIO (k : role_key) : f64 :=
  match k with
  | RAptitude => fl64_div 5 10
  | RTechnical => fl64_div 5 100
  | RHr => fl64_div 0 1
  | RBeh => fl64_div 0 1
  | RDefault => fl64_div 4 10
  end.

(** Whether [ROLE_ALLOWED_TYPES[k]] contains ["math"] (every set contains
    ["reasoning"]). *)
Definition math_allowed (k : role_key) : bool :=
  match k with
  | RAptitude | RDefault => true
  | RTechnical | RHr | RBeh => false
  end.

Definition type_allowed (k : role_key) (t : qtype) : bool :=
  match t with QMath => math_allowed k | QReasoning => true end.

(** [round(x)] on a non-negative double: half to even. *)
Definition py_round (x : f64) : Z := rne_div (fnum x) (fden x).

(** [max(0, int(round(n * math_ratio)))]: [n] is converted to a double,
    the product is rounded to a double, then rounded to an integer. *)
Definition math_needed_total (k : role_key) (n : Z) : Z :=
  let nf := fl64_div n 1 in
  let r := ROLE_MATH_RATIO k in
  Z.max 0 (py_round (fl64_div (fnum nf * fnum r) (fden nf * fden r))).

(** [signature_of_text]: SHA-256 of [" ".join(text.lower().split())].
    The digest is taken to be collision-free, so the normalised text
    stands for it. *)
Definition signature_of_text (text : pystr) : pystr := join (lit " ") (split_ws (lower text)).

Definition upper_char (c : Z) : Z := if (97 <=? c) && (c <=? 122) then c - 32 else c.

(** [str.capitalize()] on ASCII letters. *)
Definition capitalize (s : pystr) : pystr :=
  match s with
  | [] => []
  | c :: r => upper_char c :: lower r
  end.

Definition math_clause (n math_needed : Z) : pystr :=
  if 0 <? math_needed
  then lit "- Exactly " ++ z_to_str math_needed ++ lit " of the " ++ z_to_str n
       ++ lit " items MUST be of type " ++ dq "math" ++ lit " and include numeric data.
"
  else lit "- ZERO items of the " ++ z_to_str n ++ lit " items should be of type "
       ++ dq "math" ++ lit ".
".

(** [_build_prompt] *)
Definition build_prompt (role : pystr) (n difficulty math_needed : Z) : pystr :=
  lit "
You are a careful interview question generator.

TASK:
Generate EXACTLY " ++ z_to_str n ++ lit " unique interview questions for the role "
  ++ [34] ++ role ++ [34] ++ lit " and difficulty " ++ z_to_str difficulty ++ lit ".
Return ONLY a JSON array. Each entry MUST be an object with keys:
  - " ++ dq "text" ++ lit ": string - the question text (≤ 300 chars). For math questions include numeric data and a clear ask.
  - " ++ dq "keywords" ++ lit ": string - comma-separated keywords.
  - " ++ dq "difficulty" ++ lit ": integer 1-5.
  - " ++ dq "type" ++ lit ": string - either " ++ dq "math" ++ lit " or " ++ dq "reasoning" ++ lit ".

MIX RULE:
" ++ math_clause n math_needed ++ lit "
- The rest of the items must be of type " ++ dq "reasoning" ++ lit ".
- Ensure variety: do not repeat same template or numeric values.
- If you cannot meet constraints, return an empty array [].

FORMAT RULES:
- RETURN ONLY the JSON array and NOTHING ELSE (no commentary, no markdown).
- Ensure valid JSON (double quotes, no trailing commas).

Examples:
[
  {" ++ dq "text" ++ lit ":"
  ++ dq "A machine produces 120 parts in 8 hours. At the same rate how many parts in 5 hours?"
  ++ lit "," ++ dq "keywords" ++ lit ":" ++ dq "rate,proportion" ++ lit ","
  ++ dq "difficulty" ++ lit ":2," ++ dq "type" ++ lit ":" ++ dq "math" ++ lit "},
  {" ++ dq "text" ++ lit ":"
  ++ dq "Describe a time you handled conflicting priorities and how you decided."
  ++ lit "," ++ dq "keywords" ++ lit ":" ++ dq "prioritization,tradeoffs" ++ lit ","
  ++ dq "difficulty" ++ lit ":3," ++ dq "type" ++ lit ":" ++ dq "reasoning" ++ lit "}
]

CONSTRAINTS:
- Avoid PII or offensive content.
- Keep questions clear and answerable within 1-5 minutes.
".

(* ------------------------------------------------------------------ *)
(** ** The template stub ([views_helpers.generate_question_stub]) *)

Inductive hole := HA | HB | HScenario | HN | HM.
Inductive seg := SLit (s : pystr) | SHole (h : hole).

Definition L (s : string) : seg := SLit (lit s).

Definition tech_terms : list pystr :=
  map lit ["process"; "thread"; "database indexing"; "REST API"; "authentication";
           "caching"; "load balancing"; "microservices"; "HTTP protocol";
           "Docker container"]%string.

Definition scenarios : list pystr :=
  map lit ["a production outage"; "a conflicting requirement"; "a tight deadline";
           "scaling the system to 10x"; "optimizing slow database queries";
           "managing teamwork conflicts"; "debugging a critical bug";
           "handling unexpected edge cases"]%string.

Inductive stub_cat := CTech | CHr | CApt | CBeh.

Definition templates (c : stub_cat) : list (list seg) :=
  match c with
  | CTech =>
      [[L "Explain how "; SHole HA; L " works and give an example."];
       [L "Describe the difference between "; SHole HA; L " and "; SHole HB;
        L " with a real-life example."];
       [L "How would you troubleshoot issues related to "; SHole HA; L "?"];
       [L "Design a small system using "; SHole HA; L " and explain the flow."];
       [L "What are common mistakes developers make with "; SHole HA; L "?"]]
  | CHr =>
      [[L "Tell me about a time you handled "; SHole HScenario; L "."];
       [L "Describe your strengths and weaknesses in a real situation."];
       [L "How do you deal with conflicts inside a team?"];
       [L "Why do you think you are a good fit for this role?"];
       [L "Describe your biggest achievement and how you reached it."]]
  | CApt =>
      [[L "If "; SHole HN; L " people share "; SHole HM;
        L " items, how many items per person? Explain reasoning."];
       [L "Solve a real-life problem using ratios or percentages."];
       [L "Explain how to break a complex problem into smaller steps."];
       [L "Given a series: 2, 6, 18… find the next term and justify."];
       [L "How do you approach solving optimization problems?"]]
  | CBeh =>
      [[L "Tell me about a time you had to make a quick decision under pressure."];
       [L "Describe a failure you experienced and what you learned."];
       [L "How do you motivate yourself during repetitive tasks?"];
       [L "Explain a situation where you took leadership voluntarily."];
       [L "Describe how you handle criticism or negative feedback."]]
  end.

(** [role if role in templates else 'tech'], for the role keys the
    generator passes. *)
Definition stub_category (k : role_key) : stub_cat :=
  match k with
  | RHr => CHr
  | RBeh => CBeh
  | RTechnical | RAptitude | RDefault => CTech
  end.

Record stub := mk_stub { s_text : pystr; s_keywords : pystr; s_difficulty : Z }.

(** [template.format(a=a, b=b, scenario=scenario, n=n, m=m)] *)
Definition fill (t : list seg) (a b scenario : pystr) (n m : Z) : pystr :=
  flat_map (fun sg => match sg with
                      | SLit s => s
                      | SHole HA => a
                      | SHole HB => b
                      | SHole HScenario => scenario
                      | SHole HN => z_to_str n
                      | SHole HM => z_to_str m
                      end) t.

(** [random.choice(l)] on the draw [d]. *)
Definition choice {A : Type} (d : Z) (l : list A) (dflt : A) : A :=
  nth (Z.to_nat (d mod Z.of_nat (length l))) l dflt.

(** [generate_question_stub], given its six draws from [random]:
    template, [a], [b], [scenario], [randint(2, 20)], [randint(5, 100)]. *)
Definition generate_question_stub (k : role_key) (difficulty : Z)
    (d1 d2 d3 d4 d5 d6 : Z) : stub :=
  let template := choice d1 (templates (stub_category k)) [] in
  let a := choice d2 tech_terms [] in
  let b := choice d3 (filter (fun t => negb (pystr_eqb t a)) tech_terms) [] in
  let scenario := choice d4 scenarios [] in
  let n := 2 + d5 mod 19 in
  let m := 5 + d6 mod 96 in
  let text := strip (fill template a b scenario n m) in
  let first_word := match split_ws scenario with w :: _ => w | [] => [] end in
  let keywords :=
    fold_left (fun acc kw => if negb (null kw) && (Z.of_nat (length acc) <? 4)
                             then acc ++ [lower kw] else acc)
      [a; b; first_word; lit "explain"] [] in
  mk_stub text (join (lit ",") keywords) difficulty.

(* ------------------------------------------------------------------ *)
(** ** The generator ([generate_questions_groq]) *)

(** What one call of [_call_groq_chat] followed by
    [_extract_json_array_from_text] came to: the call raised, the
    extraction raised (no bracketed span, bad JSON, not a list, or a
    reply that is not a string), or the parsed list. *)
Inductive gresp := GCallFail | GParseFail | GArray (l : list json).

(** The requests sent so far, most recent first (prompt and temperature
    in hundredths), and the number of draws taken from [random]. *)
Record gstate := mk_gstate { gs_calls : list (pystr * Z); gs_draw : nat }.

(** State and exceptions. *)
Definition M (A : Type) : Type := gstate -> pyres A * gstate.
Definition mret {A : Type} (a : A) : M A := fun s => (Ok a, s).
Definition mbind {A B : Type} (m : M A) (k : A -> M B) : M B :=
  fun s => match m s with
           | (Ok a, s') => k a s'
           | (Raise e, s') => (Raise e, s')
           end.
Definition mlift {A : Type} (r : pyres A) : M A := fun s => (r, s).
Notation "x <- m ;; k" := (mbind m (fun x => k))
  (at level 61, m at next level, right associativity).

(** [collected], [seen_sigs] and [math_count] of the main loop. *)
Record cstate := mk_cstate { c_collected : list qitem; c_seen : list pystr; c_math : Z }.

Definition zlen {A : Type} (l : list A) : Z := Z.of_nat (length l).

Definition is_mathb (q : qitem) : bool := qtype_eqb (q_type q) QMath.

(** The [for obj in parsed] loop of the main loop. *)
Fixpoint absorb (n : Z) (parsed : list json) (cs : cstate) : pyres cstate :=
  match parsed with
  | [] => Ok cs
  | obj :: rest =>
      match validate_question_obj obj with
      | Raise e => Raise e
      | Ok None => absorb n rest cs
      | Ok (Some v0) =>
          let v := ensure_math_has_number v0 in
          let sig := signature_of_text (q_text v) in
          if existsb (pystr_eqb sig) (c_seen cs) then absorb n rest cs
          else
            let cs' := mk_cstate (c_collected cs ++ [v]) (sig :: c_seen cs)
                         (if is_mathb v then c_math cs + 1 else c_math cs) in
            if n <=? zlen (c_collected cs') then Ok cs' else absorb n rest cs'
      end
  end.

(** Drop the first [k] items whose type is not ["math"]. *)
Fixpoint drop_reasoning (k : Z) (l : list qitem) : list qitem :=
  match l with
  | [] => []
  | q :: l' => if negb (is_mathb q) && (0 <? k) then drop_reasoning (k - 1) l'
               else q :: drop_reasoning k l'
  end.

(** The quota swap after each batch. *)
Definition swap_step (n mnt : Z) (cs : cstate) : cstate :=
  if (n <=? zlen (c_collected cs)) && (c_math cs <? mnt) then
    let coll := drop_reasoning (mnt - c_math cs) (c_collected cs) in
    mk_cstate coll (map (fun q => signature_of_text (q_text q)) coll)
      (zlen (filter is_mathb coll))
  else cs.

(** The [for obj in parsed] loop of [enforce_role_allowed_types]. *)
Fixpoint absorb_repl (allowed : bool) (parsed : list json) (kept : list qitem) (removed : Z)
    : pyres (list qitem * Z) :=
  match parsed with
  | [] => Ok (kept, removed)
  | obj :: rest =>
      match validate_question_obj obj with
      | Raise e => Raise e
      | Ok None => absorb_repl allowed rest kept removed
      | Ok (Some v) =>
          if is_math_question v && negb allowed then absorb_repl allowed rest kept removed
          else
            let kept' := kept ++ [ensure_math_has_number v] in
            if removed - 1 <=? 0 then Ok (kept', removed - 1)
            else absorb_repl allowed rest kept' (removed - 1)
      end
  end.

Section Generate.

(** The service, as a function of every request made so far. *)
Variable gclient : list (pystr * Z) -> gresp.
(** The [random] module, as the value of each successive draw. *)
Variable draws : nat -> Z.
Variable DEV_FORCE_CREATE : bool.
Variable role : pystr.
Variable n difficulty : Z.

Definition call_client (prompt : pystr) (temperature : Z) : M gresp :=
  fun s => let cs := (prompt, temperature) :: gs_calls s in
           (Ok (gclient cs), mk_gstate cs (gs_draw s)).

Definition draw : M Z :=
  fun s => (Ok (draws (gs_draw s)), mk_gstate (gs_calls s) (S (gs_draw s))).

Definition rk : role_key := normalize_role_key role.
Definition mnt : Z := math_needed_total rk n.

(** [while len(collected) < n and attempts < max_attempts], [fuel] being
    the attempts left. *)
Fixpoint main_loop (fuel : nat) (cs : cstate) : M cstate :=
  match fuel with
  | O => mret cs
  | S f =>
      if n <=? zlen (c_collected cs) then mret cs
      else
        let remaining := n - zlen (c_collected cs) in
        let math_for_this_call := Z.min remaining (Z.max 0 (mnt - c_math cs)) in
        r <- call_client (build_prompt (capitalize role) remaining difficulty math_for_this_call) 20 ;;
        match r with
        | GCallFail => mret cs
        | GParseFail => main_loop f cs
        | GArray parsed =>
            cs' <- mlift (absorb n parsed cs) ;;
            main_loop f (swap_step n mnt cs')
        end
  end.

(** The [while removed_slots > 0 and attempts < max_attempts] loop. *)
Fixpoint repl_loop (fuel : nat) (kept : list qitem) (removed : Z) : M (list qitem) :=
  match fuel with
  | O => mret kept
  | S f =>
      if 0 <? removed then
        r <- call_client (build_prompt (capitalize (role_key_str rk)) removed difficulty 0) 15 ;;
        match r with
        | GArray parsed =>
            p <- mlift (absorb_repl (math_allowed rk) parsed kept removed) ;;
            repl_loop f (fst p) (snd p)
        | _ => mret kept
        end
      else mret kept
  end.

(** [enforce_role_allowed_types(role_key, collected, n, difficulty)] *)
Definition enforce_role_allowed_types (collected : list qitem) : M (list qitem) :=
  let allowed := math_allowed rk in
  let kept := filter (fun q => negb (is_math_question q && negb allowed)) collected in
  let removed := zlen (filter (fun q => is_math_question q && negb allowed) collected) in
  kept' <- repl_loop (Z.to_nat (Z.max 2 (removed * 3))) kept removed ;;
  mret (firstn (Z.to_nat n) kept').

Definition stub_call : M stub :=
  d1 <- draw ;; d2 <- draw ;; d3 <- draw ;; d4 <- draw ;; d5 <- draw ;; d6 <- draw ;;
  mret (generate_question_stub rk difficulty d1 d2 d3 d4 d5 d6).

(** The stub item appended by the backfill, given the signatures seen. *)
Definition stub_item (seen : list pystr) (st : stub) : qitem * pystr :=
  let sig := signature_of_text (s_text st) in
  let text := if existsb (pystr_eqb sig) seen && negb DEV_FORCE_CREATE
              then s_text st ++ lit " (variant)" else s_text st in
  (mk_qitem (strip text) (s_keywords st) (s_difficulty st)
     (if is_math_question_textual text then QMath else QReasoning),
   signature_of_text text).

(** [for _ in range(missing)] *)
Fixpoint backfill (k : nat) (seen : list pystr) (final : list qitem) : M (list qitem) :=
  match k with
  | O => mret final
  | S k' =>
      st <- stub_call ;;
      let '(item, sig) := stub_item seen st in
      backfill k' (sig :: seen) (final ++ [item])
  end.

Definition generate_m : M (list qitem) :=
  cs <- main_loop (Z.to_nat (Z.max 3 (n * 3))) (mk_cstate [] [] 0) ;;
  final <- enforce_role_allowed_types (firstn (Z.to_nat n) (c_collected cs)) ;;
  final' <- (if zlen final <? n
             then backfill (Z.to_nat (n - zlen final)) (c_seen cs) final
             else mret final) ;;
  mret (firstn (Z.to_nat n) final').

(** [generate_questions_groq(role, n, difficulty)]: the result or the
    exception, and the requests sent to the service. *)
Definition generate_questions_groq : pyres (list qitem) * list (pystr * Z) :=
  let '(r, s) := generate_m (mk_gstate [] 0) in (r, rev (gs_calls s)).

End Generate.

(* ------------------------------------------------------------------ *)
(** ** The service call ([_call_groq_chat]) and the array extraction *)

(** [key in d] for a JSON value [d]: a dict tests its keys, a list its
    elements, a string its substrings; a number or a bool raises. *)
Definition py_in (k : pystr) (d : json) : pyres bool :=
  match d with
  | JObj kv => Ok (match dict_get kv k with Some _ => true | None => false end)
  | JArr l => Ok (existsb (fun x => match x with JStr s => pystr_eqb s k | _ => false end) l)
  | JStr s => Ok (contains k s)
  | JNull | JBool _ | JInt _ => Raise TypeError
  end.

(** [d[k]] with a string key. *)
Definition getitem_str (d : json) (k : pystr) : pyres json :=
  match d with
  | JObj kv => match dict_get kv k with Some v => Ok v | None => Raise KeyError end
  | _ => Raise TypeError
  end.

(** [d[i]] with an int key; a negative index counts from the end. *)
Definition getitem_int (d : json) (i : Z) : pyres json :=
  let at_ {A : Type} (l : list A) : option A :=
    let k := if i <? 0 then i + Z.of_nat (length l) else i in
    if (k <? 0) then None else nth_error l (Z.to_nat k) in
  match d with
  | JObj _ => Raise KeyError
  | JArr l => match at_ l with Some v => Ok v | None => Raise IndexError end
  | JStr s => match at_ s with Some c => Ok (JStr [c]) | None => Raise IndexError end
  | _ => Raise TypeError
  end.

Definition pbind {A B : Type} (r : pyres A) (k : A -> pyres B) : pyres B :=
  match r with Ok a => k a | Raise e => Raise e end.

(** [d.get(k)] on a dict, [None] being [JNull]. *)
Definition get_none (kv : list (pystr * json)) (k : pystr) : json :=
  match dict_get kv k with Some v => v | None => JNull end.

(** [a or b] *)
Definition py_or (a b : json) : json := if truthy a then a else b.

(** What one reply of [requests.post] is: the call raised, or a response
    with its [text] and what [resp.json()] returned ([None] when it
    raised). *)
Inductive reply := RPostRaise | RReply (text : pystr) (data : option json).

(** The body of one attempt after [requests.post]: the content chosen from
    the response, or the exception the attempt raises. *)
Definition groq_content (text : pystr) (data : option json) : pyres json :=
  let d := match data with Some j => j | None => JNull end in
  let elif_branch :=
    pbind (py_in (lit "output") d) (fun has_output =>
      if has_output then
        Ok (match pbind (getitem_str d (lit "output")) (fun o =>
                   pbind (getitem_int o 0) (fun o0 =>
                   pbind (getitem_str o0 (lit "content")) (fun c =>
                   pbind (getitem_int c 0) (fun c0 =>
                   getitem_str c0 (lit "text"))))) with
            | Ok v => v
            | Raise _ => JStr (py_str d)
            end)
      else Ok (JStr text)) in
  let content :=
    if truthy d then
      pbind (py_in (lit "choices") d) (fun has_choices =>
        if has_choices then
          pbind (getitem_str d (lit "choices")) (fun choices =>
            if truthy choices then
              pbind (getitem_int choices 0) (fun ch =>
                match ch with
                | JObj kv =>
                    let message := py_or (get_none kv (lit "message")) ch in
                    match message with
                    | JObj m => Ok (py_or (get_none m (lit "content")) (get_none m (lit "text")))
                    | _ => Ok (JStr (py_str message))
                    end
                | _ => Raise AttributeError
                end)
            else elif_branch)
        else elif_branch)
    else Ok (JStr text) in
  pbind content (fun c => if truthy c then Ok c else Raise RuntimeError).

Definition attempt_result (r : reply) : pyres json :=
  match r with
  | RPostRaise => Raise RequestException
  | RReply text data => groq_content text data
  end.

(** What the attempts do that can be observed: the posts, and the
    [time.sleep] after a failed attempt (in tenths of a second). *)
Inductive call_event := EPost (attempt : Z) | ESleep (tenths : Z).

Definition MAX_RETRIES : nat := 4.

(** [for attempt in range(1, MAX_RETRIES + 1)], [k] attempts left. *)
Fixpoint call_attempts (post : Z -> reply) (k : nat) (attempt : Z) (last_exc : option exn)
    : pyres json * list call_event :=
  match k with
  | O => (Raise (match last_exc with Some e => e | None => RuntimeError end), [])
  | S k' =>
      match attempt_result (post attempt) with
      | Ok c => (Ok c, [EPost attempt])
      | Raise e =>
          let '(r, tr) := call_attempts post k' (attempt + 1) (Some e) in
          (r, EPost attempt :: ESleep (15 * attempt) :: tr)
      end
  end.

(** [_call_groq_chat(prompt)]: [post attempt] is the reply to the
    [attempt]-th post of the request. *)
Definition call_groq_chat (api_key : pystr) (post : Z -> reply) : pyres json * list call_event :=
  if null api_key then (Raise RuntimeError, [])
  else call_attempts post MAX_RETRIES 1 None.

Fixpoint find_index (c : Z) (s : pystr) : option nat :=
  match s with
  | [] => None
  | x :: s' => if x =? c then Some O else option_map S (find_index c s')
  end.

(** [s.find(c)] and [s.rfind(c)] for a one-character [c]. *)
Definition py_find (c : Z) (s : pystr) : Z :=
  match find_index c s with Some i => Z.of_nat i | None => -1 end.
Definition py_rfind (c : Z) (s : pystr) : Z :=
  match find_index c (rev s) with
  | Some i => Z.of_nat (length s) - 1 - Z.of_nat i
  | None => -1
  end.

(** [s[i:j]] for [0 <= i]. *)
Definition slice (s : pystr) (i j : Z) : pystr :=
  firstn (Z.to_nat (j - i)) (skipn (Z.to_nat i) s).

(** [_extract_json_array_from_text(text)]; [loads] is [json.loads]
    ([JSONDecodeError] is a [ValueError]). *)
Definition extract_json_array (loads : pystr -> pyres json) (text : pystr) : pyres (list json) :=
  let start := py_find 91 text in
  let end_ := py_rfind 93 text in
  if (start =? -1) || (end_ =? -1) || (end_ <=? start) then Raise ValueError
  else
    match loads (slice text start (end_ + 1)) with
    | Raise e => Raise e
    | Ok (JArr l) => Ok l
    | Ok _ => Raise ValueError
    end.

(** One request of the main loop: [_call_groq_chat] raising ends the
    loop, the extraction raising (also on a reply that is not a [str],
    which has no [find]) skips the batch. *)
Definition gresp_of (loads : pystr -> pyres json) (call : pyres json) : gresp :=
  match call with
  | Raise _ => GCallFail
  | Ok (JStr t) => match extract_json_array loads t with
                   | Ok l => GArray l
                   | Raise _ => GParseFail
                   end
  | Ok _ => GParseFail
  end.

(** ** Views ([views.py]) *)

(** [s.replace(old, new)] for a non-empty [old]: left to right, without
    overlaps. *)
Fixpoint replace_aux (fuel : nat) (old new s : pystr) : pystr :=
  match fuel with
  | O => s
  | S f =>
      match s with
      | [] => []
      | c :: s' =>
          if is_prefix old s then new ++ replace_aux f old new (skipn (length old) s)
          else c :: replace_aux f old new s'
      end
  end.
Definition py_replace (old new s : pystr) : pystr := replace_aux (length s) old new s.

(** [dict.get(k, d)] on an association list with string values. *)
Fixpoint assoc_get (kv : list (pystr * pystr)) (k : pystr) (d : pystr) : pystr :=
  match kv with
  | [] => d
  | (k', v) :: kv' => if pystr_eqb k k' then v else assoc_get kv' k d
  end.

Definition ROLE_MAP : list (pystr * pystr) :=
  [(lit "tech", lit "Technical"); (lit "hr", lit "Human Resources");
   (lit "apt", lit "Aptitude"); (lit "beh", lit "Behavioral")].

(** [ROLE_MAP.get(raw_role.lower(), raw_role.capitalize())] *)
Definition role_for_prompt (raw_role : pystr) : pystr :=
  assoc_get ROLE_MAP (lower raw_role) (capitalize raw_role).

Definition role_instructions : list (pystr * pystr) :=
  [(lit "tech", lit "Explain a core technical concept or solve a coding problem.");
   (lit "hr", lit "Describe how to handle workplace scenarios or HR policies.");
   (lit "aptitude", lit "Solve a logical reasoning or quantitative problem.");
   (lit "behavioral", lit "Discuss how to handle interpersonal or situational challenges.")].

(** The [generate_question_stub] defined in [views.py], which shadows the
    one imported from [views_helpers]. *)
Definition views_question_stub (role : pystr) (difficulty : Z) : stub :=
  let instruction := assoc_get role_instructions (lower role)
                       (lit "Provide a general question related to the role.") in
  let text := lit "(AI stub) " ++ role ++ lit " question (difficulty " ++ z_to_str difficulty
              ++ lit "): " ++ instruction in
  let keywords := py_replace (lit " ") (lit ",") (py_replace (lit " or ") (lit ",") (lower instruction)) in
  mk_stub text keywords difficulty.

(** A [GeneratedQuestion] row. *)
Record qrow := mk_qrow {
  qr_id : Z; qr_role : pystr; qr_difficulty : Z; qr_text : pystr;
  qr_keywords : pystr; qr_source : pystr; qr_signature : pystr
}.

(** The [GeneratedQuestion] table, rows in [id] order, and the next [id]. *)
Record qtable := mk_qtable { qt_rows : list qrow; qt_next : Z }.

(** [GeneratedQuestion.objects.get_or_create(signature=sig, defaults=...)] *)
Definition get_or_create (t : qtable) (sig : pystr) (mk : Z -> qrow) : pyres (qrow * qtable) :=
  match filter (fun r => pystr_eqb (qr_signature r) sig) (qt_rows t) with
  | [] => let r := mk (qt_next t) in Ok (r, mk_qtable (qt_rows t ++ [r]) (qt_next t + 1))
  | [r] => Ok (r, t)
  | _ => Raise MultipleObjectsReturned
  end.

(** [if qrow.role != raw_role: qrow.role = raw_role; qrow.save(update_fields=["role"])] *)
Definition fix_role (t : qtable) (r : qrow) (raw_role : pystr) : qtable :=
  if pystr_eqb (qr_role r) raw_role then t
  else mk_qtable (map (fun x => if qr_id x =? qr_id r
                                then mk_qrow (qr_id x) raw_role (qr_difficulty x) (qr_text x)
                                       (qr_keywords x) (qr_source x) (qr_signature x)
                                else x) (qt_rows t)) (qt_next t).

(** Step 2 of [start_session]: the questions from the generator. *)
Fixpoint llm_loop (raw_role : pystr) (n : Z) (qs : list qitem) (ids : list Z) (t : qtable)
    : pyres (list Z * qtable) :=
  match qs with
  | [] => Ok (ids, t)
  | q :: qs' =>
      if n <=? zlen ids then Ok (ids, t)
      else
        let text := strip (q_text q) in
        if null text then llm_loop raw_role n qs' ids t
        else
          let sig := signature_of_text text in
          match get_or_create t sig (fun id => mk_qrow id raw_role (q_difficulty q) text
                                                (q_keywords q) (lit "llm") sig) with
          | Raise e => Raise e
          | Ok (r, t1) => llm_loop raw_role n qs' (ids ++ [qr_id r]) (fix_role t1 r raw_role)
          end
  end.

(** Step 3 of [start_session]: the stub loop, [fuel] being the attempts
    left. *)
Fixpoint stub_loop (raw_role : pystr) (n : Z) (fuel : nat) (ids : list Z) (t : qtable)
    : pyres (list Z * qtable) :=
  match fuel with
  | O => Ok (ids, t)
  | S f =>
      if zlen ids <? n then
        let payload := views_question_stub raw_role 2 in
        let text := strip (s_text payload) in
        if null text then stub_loop raw_role n f ids t
        else
          let sig := signature_of_text text in
          match get_or_create t sig (fun id => mk_qrow id raw_role (s_difficulty payload) text
                                                (s_keywords payload) (lit "template") sig) with
          | Raise e => Raise e
          | Ok (r, t1) =>
              let t2 := fix_role t1 r raw_role in
              if existsb (Z.eqb (qr_id r)) ids then stub_loop raw_role n f ids t2
              else stub_loop raw_role n f (ids ++ [qr_id r]) t2
          end
      else Ok (ids, t)
  end.

Fixpoint number_from {A : Type} (i : Z) (l : list A) : list (Z * A) :=
  match l with
  | [] => []
  | x :: l' => (i, x) :: number_from (i + 1) l'
  end.

(** The question set-up of [start_session] for a valid form ([raw_role],
    [n]): [gen] is what [generate_questions_groq(role_for_prompt, n, 3)]
    returned or raised.  The result is the [(index, question id)] of the
    [Answer] rows created, and the question table. *)
Definition start_session_questions (raw_role : pystr) (n : Z) (gen : pyres (list qitem))
    (t : qtable) : pyres (list (Z * Z) * qtable) :=
  let llm := match gen with Ok l => l | Raise _ => [] end in
  match llm_loop raw_role n llm [] t with
  | Raise e => Raise e
  | Ok (ids, t1) =>
      match stub_loop raw_role n (Z.to_nat (Z.max 50 (n * 10))) ids t1 with
      | Raise e => Raise e
      | Ok (ids', t2) => Ok (number_from 1 ids', t2)
      end
  end.

(** An [Answer] row of one session. *)
Record arow := mk_arow {
  ar_index : Z;
  ar_qid : option Z;
  ar_text : pystr;
  ar_score : option Z;
  ar_feedback : pystr;
  ar_tips : option (list json);
  ar_processed : bool
}.

(** [session.answers.filter(processed=False).order_by('index').first()];
    indices are unique in a session ([unique_together]). *)
Definition next_answer (answers : list arow) : option arow :=
  fold_left (fun best a =>
               if ar_processed a then best
               else match best with
                    | None => Some a
                    | Some b => if ar_index a <? ar_index b then Some a else best
                    end) answers None.

(** [next_question]: the answer shown and the new [current_index], or
    [None] (redirect to the summary, [current_index] unchanged). *)
Definition next_question (cur : Z) (answers : list arow) : option arow * Z :=
  match next_answer answers with
  | Some a => (Some a, ar_index a)
  | None => (None, cur)
  end.

(** [id NOT IN (SELECT question_id ...)] in SQL: never true when the
    subquery has a [NULL]. *)
Definition not_in_sql (id : Z) (used : list (option Z)) : bool :=
  forallb (fun u => match u with Some x => negb (x =? id) | None => false end) used.

(** [skip_question] for a session with [role] and [current_index = cur];
    [qs] is the question table in [id] order.  The result is the new
    [current_index] and the session's answers. *)
Definition skip_question (role : pystr) (qs : list qrow) (cur : Z) (answers : list arow)
    : pyres (Z * list arow) :=
  let used := map ar_qid answers in
  match find (fun r => pystr_eqb (qr_role r) role && not_in_sql (qr_id r) used) qs with
  | None => Ok (cur, answers)
  | Some q =>
      let cur' := cur + 1 in
      if existsb (fun a => ar_index a =? cur') answers then Raise IntegrityError
      else Ok (cur', answers ++ [mk_arow cur' (Some (qr_id q)) (lit "[Skipped]") (Some 0) [] None false])
  end.

(** The fields [AnswerForm] declares: the class derives from
    [forms.Form] and only nests a [Meta], which [forms.Form] ignores. *)
Definition answer_form_fields : list pystr := [].

(** [form.cleaned_data] for the posted data: the declared fields only. *)
Definition cleaned_data (post : list (pystr * pystr)) : list (pystr * pystr) :=
  filter (fun kv => existsb (pystr_eqb (fst kv)) answer_form_fields) post.

(** [submit_answer] on the answer [a] of question [q], for the posted
    data [post]: the row as saved. *)
Definition submit_answer (nlp : pystr -> list pystr) (tips_client : pystr -> option json)
    (post : list (pystr * pystr)) (q : option question) (a : arow) : arow :=
  let text := strip (assoc_get (cleaned_data post) (lit "answer_text") []) in
  let ev := fst (analyze_transcript nlp tips_client text q) in
  mk_arow (ar_index a) (ar_qid a) text (Some (ev_score ev)) (ev_feedback ev)
    (Some (ev_tips ev)) true.

(** One answer as [session_summary] reads it: the text of its question
    ([None] when the question row was deleted), and the answer's fields. *)
Record srow := mk_srow {
  sr_question_text : option pystr;
  sr_answer_text : pystr;
  sr_score : option Z;
  sr_feedback : pystr
}.

(** [text[:70] + ("..." if len(text) > 70 else "")] *)
Definition snippet (t : pystr) : pystr :=
  take 70 t ++ (if 70 <? zlen t then lit "..." else []).

(** [list(dict.fromkeys(l))] *)
Definition dedupe (l : list pystr) : list pystr :=
  fold_left (fun acc x => if existsb (pystr_eqb x) acc then acc else acc ++ [x]) l [].

(** The loop building [strengths] and [improvements] from the feedback;
    [answer.question.text] raises [AttributeError] without a question. *)
Fixpoint feedback_lists (rows : list srow) : pyres (list pystr * list pystr) :=
  match rows with
  | [] => Ok ([], [])
  | r :: rows' =>
      match sr_question_text r with
      | None => Raise AttributeError
      | Some qt =>
          pbind (feedback_lists rows') (fun '(st, im) =>
            let fb := lower (sr_feedback r) in
            let sn := snippet qt in
            let st' := if negb (null fb) && (contains (lit "good") fb || contains (lit "excellent") fb
                                              || contains (lit "well") fb)
                       then (lit "Strong answer to: " ++ sn) :: st else st in
            let im' := if negb (null fb) && (contains (lit "improv") fb || contains (lit "better") fb
                                              || contains (lit "need") fb)
                       then (lit "Could improve: " ++ sn) :: im else im in
            Ok (st', im'))
      end
  end.

(** [answer_payload] *)
Definition summary_payload (r : srow) : answer :=
  mk_answer (sr_question_text r) (Some (sr_answer_text r))
    (match sr_score r with Some s => s | None => 0 end) (Some (sr_feedback r)).

Definition jstrs (l : list pystr) : json := JArr (map JStr l).

(** The suggestion part of [session_summary] for the session's answers in
    [index] order: the rendered [strengths], [improvements], [overall_tip]
    and [resources].  [InterviewSession] has no [suggestions_json]
    attribute, so [getattr(session, "suggestions_json", None)] is [None]
    and nothing is persisted. *)
Definition summary_suggestions (sclient : list (pystr * pystr * Z * pystr) -> sresp)
    (rows : list srow) : pyres (json * json * json * json) :=
  pbind (feedback_lists rows) (fun '(st0, im0) =>
    let strengths := firstn 3 (dedupe st0) in
    let improvements := firstn 5 (dedupe im0) in
    let suggestions :=
      match generate_session_suggestions sclient (map summary_payload rows) with
      | Ok d => if null d then None else Some d
      | Raise _ => None
      end in
    let d := match suggestions with
             | Some d => d
             | None =>
                 [(k_strengths, if null strengths then jstrs [lit "Clear answers to some questions."]
                                else jstrs strengths);
                  (k_improvements,
                    if null improvements
                    then jstrs [lit "Work on structuring answers and giving concrete examples."]
                    else jstrs improvements);
                  (k_overall_tip, JStr (lit "Practice concise explanations, and focus on weaker areas identified above."));
                  (k_resources, jstrs [lit "Review domain fundamentals"; lit "Practice mock interviews";
                                       lit "Study common patterns"])]
             end in
    Ok (get_or d k_strengths (jstrs strengths), get_or d k_improvements (jstrs improvements),
        get_or d k_overall_tip (JStr []), get_or d k_resources (JArr []))).

(* ------------------------------------------------------------------ *)
(** ** Reference predicates *)

(** The keyword part as the specification words it, with Python's
    [round] (half to even) in place of [int]. *)
Definition rounded_keyword_score (matched nk : Z) : Z :=
  if nk =? 0 then 20 else rne_div (matched * 40) nk.

(** A request to the service whose prompt asks for no math item
    (the [- ZERO items ...] clause of [_build_prompt]). *)
Definition zero_quota_call (difficulty : Z) (c : pystr * Z) : Prop :=
  exists role n, fst c = build_prompt role n difficulty 0.

(** The signature the generator files a question under. *)
Definition sig_of (q : qitem) : pystr := signature_of_text (q_text q).

(** The main loop's bookkeeping: the collected signatures are distinct and
    all recorded in [seen_sigs]. *)
Definition seen_inv (cs : cstate) : Prop :=
  NoDup (map sig_of (c_collected cs)) /\ incl (map sig_of (c_collected cs)) (c_seen cs).

(** The entry of the fallback lists for one answer:
    [a.get('question_text', '')[:120]]. *)
Definition head120 (a : answer) : json :=
  JStr (take 120 (match a_question_text a with Some s => s | None => [] end)).

(** The events of [k] failed attempts of [_call_groq_chat]: each post is
    followed by [time.sleep(1.5 * attempt)]. *)
Definition failed_attempts (k : nat) : list call_event :=
  flat_map (fun j => [EPost (Z.of_nat j); ESleep (15 * Z.of_nat j)]) (seq 1 k).

(** A row after [fix_role] has set the role of the row [id]. *)
Definition fix_row (raw_role : pystr) (id : Z) (x : qrow) : qrow :=
  if qr_id x =? id
  then mk_qrow (qr_id x) raw_role (qr_difficulty x) (qr_text x)
         (qr_keywords x) (qr_source x) (qr_signature x)
  else x.

(** The invariant of the question set-up of [start_session]: signatures
    are unique in the table, and every attached id has a row with the
    session's role. *)
Definition setup_inv (raw_role : pystr) (t : qtable) (ids : list Z) : Prop :=
  NoDup (map qr_signature (qt_rows t))
  /\ Forall (fun i => exists r, In r (qt_rows t) /\ qr_id r = i /\ qr_role r = raw_role) ids.

(* ------------------------------------------------------------------ *)
(** ** Inputs of the witnesses *)

Definition wq (t : string) : json :=
  JObj [(lit "text", JStr (lit t)); (lit "type", JStr (lit "reasoning"))].

(** A service that always returns the same three items, two of which have
    the same signature. *)
Definition dup_client (calls : list (pystr * Z)) : gresp :=
  GArray [wq "Explain REST."; wq "  explain   rest. "; wq "Explain caching."].

Definition math_item : qitem :=
  mk_qitem (lit "What is 12 * 7?") (lit "arithmetic") 2 QMath.

(** A service that answers every replacement request with one item of
    each type. *)
Definition repl_client (calls : list (pystr * Z)) : gresp :=
  GArray [JObj [(lit "text", JStr (lit "If 3 pens cost 6, what does 1 cost?"));
                (lit "type", JStr (lit "math"))];
          wq "Describe how an index speeds up a query."].

Definition c10_obj : json :=
  JObj [(lit "text", JStr (lit "What is 2+2?")); (lit "type", JInt 1)].

Definition blank_text_obj : json := JObj [(lit "text", JStr (lit "   "))].

Definition ans (t : string) (s : Z) : answer := mk_answer (Some (lit t)) (Some []) s None.

Definition six_answers : list answer :=
  [ans "Q1" 40; ans "Q2" 90; ans "Q3" 10; ans "Q4" 70; ans "Q5" 55; ans "Q6" 20].

(** Three posts that raise, then an empty reply, then a reply whose text
    is used as it is. *)
Definition flaky_post (attempt : Z) : reply :=
  if attempt <? 3 then RPostRaise
  else if attempt =? 3 then RReply [] None
  else RReply (lit "[]") None.

Definition error_body : json := JObj [(lit "error", JStr (lit "rate limit reached"))].

Definition chat_message : list (pystr * json) :=
  [(lit "role", JStr (lit "assistant"));
   (lit "content", JStr (lit "Here: [1, 2] done"))].

Definition chat_body : list (pystr * json) :=
  [(lit "choices", JArr [JObj [(lit "message", JObj chat_message)]])].

Definition chat_post (attempt : Z) : reply := RReply (lit "{...}") (Some (JObj chat_body)).

(** A stand-in for [json.loads] that knows one text. *)
Definition loads12 (s : pystr) : pyres json :=
  if pystr_eqb s (lit "[1, 2]") then Ok (JArr [JInt 1; JInt 2]) else Raise ValueError.

Definition empty_table : qtable := mk_qtable [] 1.

(** A question table holding [What is REST?] under the role [hr], and
    generator items: the same question spaced and cased differently, a
    blank text and a new question. *)
Definition reuse_table : qtable :=
  mk_qtable [mk_qrow 1 (lit "hr") 3 (lit "What is REST?") [] (lit "llm")
               (signature_of_text (lit "What is REST?"))] 2.

Definition session_items : list qitem :=
  [mk_qitem (lit " what is  REST? ") (lit "api") 2 QReasoning;
   mk_qitem (lit "   ") [] 2 QReasoning;
   mk_qitem (lit "Explain caching.") (lit "cache") 3 QReasoning].

Definition arow_at (i : Z) (q : Z) : arow := mk_arow i (Some q) [] None [] None false.

Definition bank : list qrow :=
  [mk_qrow 1 (lit "tech") 2 (lit "Q one") [] (lit "llm") (lit "q one");
   mk_qrow 2 (lit "tech") 2 (lit "Q two") [] (lit "llm") (lit "q two");
   mk_qrow 3 (lit "tech") 2 (lit "Q three") [] (lit "llm") (lit "q three")].

Definition summary_rows : list srow :=
  [mk_srow (Some (lit "What is REST?")) (lit "An API style") (Some 62) (lit "Good answer.");
   mk_srow (Some (lit "What is caching?")) [] (Some 0) (lit "You need to improve.")].

(* ================================================================== *)
(** * Properties *)

(* ------------------------------------------------------------------ *)
(** ** Sanity checks of the string model *)

Example z_to_str_ex : z_to_str 120 = lit "120" /\ z_to_str (-7) = lit "-7".
Proof. split; reflexivity. Qed.

Example strip_split_ex :
  strip (lit "  a b ") = lit "a b" /\ split_ws (lit " A  b ") = [lit "A"; lit "b"].
Proof. split; reflexivity. Qed.

Example signature_ex : signature_of_text (lit " A  b ") = signature_of_text (lit "a b").
Proof. reflexivity. Qed.

Example keyword_score_ex :
  keyword_score 2 3 = 26 /\ keyword_score 7 10 = 28 /\ keyword_score 2 2 = 40
  /\ keyword_score 0 5 = 0 /\ keyword_score 0 0 = 20.
Proof. vm_compute. repeat split; reflexivity. Qed.

(* ------------------------------------------------------------------ *)
(** ** Scoring: the empty answer *)

(** C4: [analyze_transcript] of the empty answer, for any question (or
    none), returns score 0, the fixed feedback and the three fixed tips,
    and neither runs the tokenizer nor calls the service. *)
Theorem analyze_empty_answer :
  forall (nlp : pystr -> list pystr) (tips_client : pystr -> option json)
         (q : option question),
    analyze_transcript nlp tips_client [] q =
      (mk_evaluation 0 (lit "You did not provide an answer to this question.")
         [JStr (lit "Answer the question in your own words");
          JStr (lit "Explain the main idea clearly");
          JStr (lit "Add an example to support your explanation")],
       []).
Proof. intros. reflexivity. Qed.

(* ------------------------------------------------------------------ *)
(** ** Binary64 bounds *)

Lemma rne_div_nonneg : forall a b, 0 < b -> 0 <= a -> 0 <= rne_div a b.
Proof.
  intros a b Hb Ha. unfold rne_div.
  assert (0 <= a / b) by (apply Z.div_pos; lia).
  destruct (2 * (a mod b) <? b); [lia|].
  destruct (b <? 2 * (a mod b)); [lia|].
  destruct (Z.even (a / b)); lia.
Qed.

(** Rounding [a / b] to an integer never passes an integer bound. *)
Lemma rne_div_le : forall a b z, 0 < b -> a <= z * b -> rne_div a b <= z.
Proof.
  intros a b z Hb Hle. unfold rne_div.
  assert (Hq : a / b <= z) by (apply Z.div_le_upper_bound; lia).
  pose proof (Z.div_mod a b ltac:(lia)) as Hdm.
  pose proof (Z.mod_pos_bound a b Hb) as Hm.
  destruct (Z.eq_dec (a / b) z) as [Heq|Hne].
  - assert (a mod b = 0) by nia.
    replace (2 * (a mod b) <? b) with true by (symmetry; apply Z.ltb_lt; lia). lia.
  - destruct (2 * (a mod b) <? b); [lia|].
    destruct (b <? 2 * (a mod b)); [lia|].
    destruct (Z.even (a / b)); lia.
Qed.

Lemma fl64_div_bound :
  forall a b c, 0 < b -> 0 <= a -> 1 <= c <= 64 -> a <= c * b ->
    0 <= fnum (fl64_div a b) /\ 0 < fden (fl64_div a b)
    /\ fnum (fl64_div a b) <= c * fden (fl64_div a b).
Proof.
  intros a b c Hb Ha Hc Hab. unfold fl64_div.
  destruct (Z.leb_spec a 0) as [Ha0|Ha0]; [simpl; lia|].
  assert (Hs : 0 <= f64_scale a b).
  { unfold f64_scale.
    assert (Hl : Z.log2 a <= Z.log2 c + Z.log2 b + 1).
    { eapply Z.le_trans; [apply Z.log2_le_mono; exact Hab|].
      apply Z.log2_mul_above; lia. }
    assert (Z.log2 c <= 6).
    { replace 6 with (Z.log2 64) by reflexivity. apply Z.log2_le_mono; lia. }
    destruct (scaled_lt a b (52 - (Z.log2 a - Z.log2 b)) (2 ^ 52)); lia. }
  replace (0 <=? f64_scale a b) with true by (symmetry; apply Z.leb_le; exact Hs).
  simpl.
  assert (Hp : 0 < 2 ^ f64_scale a b) by (apply Z.pow_pos_nonneg; lia).
  split; [apply rne_div_nonneg; nia|]. split; [exact Hp|].
  apply rne_div_le; [lia|]. nia.
Qed.

Lemma f64_trunc_bound :
  forall x c, 0 <= fnum x -> 0 < fden x -> fnum x <= c * fden x ->
    0 <= f64_trunc x <= c.
Proof.
  intros x c H0 H1 H2. unfold f64_trunc.
  rewrite Z.quot_div_nonneg by lia. split.
  - apply Z.div_pos; lia.
  - apply Z.div_le_upper_bound; lia.
Qed.

(** [int((matched / max(1, nk)) * 40)] lies in [0, 40]. *)
Lemma keyword_score_bound :
  forall m nk, 0 <= m <= nk -> 0 <= keyword_score m nk <= 40.
Proof.
  intros m nk Hm. unfold keyword_score.
  destruct (Z.eqb_spec nk 0) as [Hk|Hk]; [lia|].
  destruct (fl64_div_bound m (Z.max 1 nk) 1 ltac:(lia) ltac:(lia) ltac:(lia) ltac:(lia))
    as (Hx0 & Hx1 & Hx2).
  set (x := fl64_div m (Z.max 1 nk)) in *.
  destruct (fl64_div_bound (40 * fnum x) (fden x) 40 Hx1 ltac:(lia) ltac:(lia) ltac:(lia))
    as (Hy0 & Hy1 & Hy2).
  apply f64_trunc_bound; assumption.
Qed.

(** All keywords matched gives exactly 40. *)
Lemma keyword_score_all : forall k, 0 < k -> keyword_score k k = 40.
Proof.
  intros k Hk. unfold keyword_score.
  replace (k =? 0) with false by (symmetry; apply Z.eqb_neq; lia).
  replace (Z.max 1 k) with k by lia.
  assert (Hx : fl64_div k k = mk_f64 (2 ^ 52) (2 ^ 52)).
  { unfold fl64_div.
    replace (k <=? 0) with false by (symmetry; apply Z.leb_gt; lia).
    assert (Hs : f64_scale k k = 52).
    { unfold f64_scale. replace (52 - (Z.log2 k - Z.log2 k)) with 52 by lia.
      unfold scaled_lt. replace (0 <=? 52) with true by reflexivity.
      rewrite (Z.mul_comm k), Z.ltb_irrefl. reflexivity. }
    rewrite Hs. replace (0 <=? 52) with true by reflexivity. f_equal.
    unfold rne_div. rewrite (Z.mul_comm k (2 ^ 52)), Z.div_mul, Z.mod_mul by lia.
    replace (2 * 0 <? k) with true by (symmetry; apply Z.ltb_lt; lia). reflexivity. }
  rewrite Hx. vm_compute. reflexivity.
Qed.

Lemma filler_count_nonneg : forall toks, 0 <= filler_count toks.
Proof. intros. unfold filler_count. lia. Qed.

Lemma matched_count_le : forall kws text, 0 <= matched_count kws text <= zlen kws.
Proof.
  intros. unfold matched_count, zlen.
  pose proof (filter_length_le (fun k => contains k (lower text)) kws) as H.
  split; [lia|]. apply Nat2Z.inj_le. eapply Nat.le_trans; [|apply H]. reflexivity.
Qed.

(* ------------------------------------------------------------------ *)
(** ** Scoring: bounds and formula *)

(** C5: for every answer (empty or not), every question (with or without
    keywords, or none), every tokenizer and every reply of the service,
    the score is an integer in [0, 100]. *)
Theorem analyze_score_in_range :
  forall (nlp : pystr -> list pystr) (tips_client : pystr -> option json)
         (text : pystr) (q : option question),
    0 <= ev_score (fst (analyze_transcript nlp tips_client text q)) <= 100.
Proof.
  intros nlp tips_client text q. unfold analyze_transcript.
  destruct (null text); [simpl; lia|].
  cbn [fst ev_score].
  pose proof (matched_count_le (keyword_list q) text) as Hm.
  pose proof (keyword_score_bound _ _ Hm) as Hk.
  pose proof (filler_count_nonneg (map lower (nlp text))) as Hf.
  unfold zlen in *.
  unfold total_score, length_score, grammar_score, filler_penalty. lia.
Qed.

(** C2 (as claimed, refuted): two of the keywords ["a,b,c"] matched by a
    two-word answer without fillers.  The claim gives
    [round(2/3 * 40) + 5 + 25 - 0 = 57]; the code truncates to 26 and
    scores 56. *)
Lemma analyze_keyword_score_truncates :
  ev_score (fst (analyze_transcript split_ws (fun _ => None) (lit "a b")
                   (Some (mk_question [] (lit "a,b,c"))))) = 56
  /\ Z.max 0 (rounded_keyword_score 2 3 + Z.min 20 (Z.max 5 2)
              + (25 - Z.min 10 (0 * 2)) - Z.min 15 (0 * 3)) = 57.
Proof. vm_compute. split; reflexivity. Qed.

(** C2 (amended): for a non-empty answer the score is
    [max(0, keyword_score + clamp(word_count, 5, 20) + (25 - min(10, 2f))
    - min(15, 3f))], where [keyword_score] is 20 without keywords and
    otherwise [int((matched / len(keywords)) * 40)] evaluated in doubles
    (a truncation, between 0 and 40, and 40 when all keywords match); a
    30-word answer without fillers matching both keywords of ["a,b"]
    scores 85. *)
Theorem analyze_score_formula :
  forall (nlp : pystr -> list pystr) (tips_client : pystr -> option json)
         (text : pystr) (q : option question),
    text <> [] ->
    let f := filler_count (map lower (nlp text)) in
    let kws := keyword_list q in
    let m := matched_count kws text in
    ev_score (fst (analyze_transcript nlp tips_client text q)) =
      Z.max 0 (keyword_score m (zlen kws) + Z.min 20 (Z.max 5 (zlen (split_ws text)))
               + (25 - Z.min 10 (f * 2)) - Z.min 15 (f * 3))
    /\ (kws = [] -> keyword_score m (zlen kws) = 20)
    /\ (kws <> [] -> 0 <= keyword_score m (zlen kws) <= 40
                     /\ (m = zlen kws -> keyword_score m (zlen kws) = 40))
    /\ (forall qt, q = Some (mk_question qt (lit "a,b")) ->
          zlen (split_ws text) = 30 -> f = 0 ->
          contains (lit "a") (lower text) = true -> contains (lit "b") (lower text) = true ->
          ev_score (fst (analyze_transcript nlp tips_client text q)) = 85).
Proof.
  intros nlp tips_client text q Hne f kws m.
  assert (Hev : ev_score (fst (analyze_transcript nlp tips_client text q)) =
      Z.max 0 (keyword_score m (zlen kws) + Z.min 20 (Z.max 5 (zlen (split_ws text)))
               + (25 - Z.min 10 (f * 2)) - Z.min 15 (f * 3))).
  { unfold analyze_transcript.
    replace (null text) with false by (destruct text; [congruence|reflexivity]).
    reflexivity. }
  split; [exact Hev|]. split.
  { intros Hk. rewrite Hk. reflexivity. }
  split.
  { intros Hk. split.
    - apply keyword_score_bound. apply matched_count_le.
    - intros Hall. rewrite Hall. apply keyword_score_all.
      destruct kws; [congruence|]. unfold zlen. simpl length. lia. }
  intros qt Hq Hw Hf Ha Hb.
  rewrite Hev, Hw, Hf.
  assert (Hk : kws = [lit "a"; lit "b"]) by (unfold kws; rewrite Hq; reflexivity).
  assert (Hm : m = 2).
  { unfold m. rewrite Hk. unfold matched_count. simpl filter. rewrite Ha, Hb. reflexivity. }
  rewrite Hm, Hk. reflexivity.
Qed.

Lemma analyze_score_formula_witness :
  lit "a b x x x x x x x x x x x x x x x x x x x x x x x x x x x x" <> []
  /\ ev_score (fst (analyze_transcript split_ws (fun _ => None)
        (lit "a b x x x x x x x x x x x x x x x x x x x x x x x x x x x x")
        (Some (mk_question [] (lit "a,b"))))) = 85.
Proof.
  split; [discriminate|].
  destruct (analyze_score_formula split_ws (fun _ => None)
              (lit "a b x x x x x x x x x x x x x x x x x x x x x x x x x x x x")
              (Some (mk_question [] (lit "a,b"))) ltac:(discriminate))
    as (_ & _ & _ & H).
  apply (H []); vm_compute; reflexivity.
Defined.

(* ------------------------------------------------------------------ *)
(** ** Enrichment of math items *)

Lemma split_on_aux_nosep :
  forall sep b cur, forallb (fun c => negb (c =? sep)) b = true ->
    split_on_aux sep b cur = [rev cur ++ b].
Proof.
  intros sep b. induction b as [|c b IH]; intros cur Hb; simpl.
  - rewrite app_nil_r. reflexivity.
  - simpl in Hb. apply andb_prop in Hb as [Hc Hb].
    apply negb_true_iff in Hc. rewrite Hc. rewrite IH by exact Hb.
    simpl. rewrite <- app_assoc. reflexivity.
Qed.

Lemma split_on_aux_last :
  forall sep a b cur, forallb (fun c => negb (c =? sep)) b = true ->
    exists pre, split_on_aux sep (a ++ sep :: b) cur = pre ++ [b].
Proof.
  intros sep a b. induction a as [|c a IH]; intros cur Hb; simpl.
  - rewrite Z.eqb_refl. rewrite split_on_aux_nosep by exact Hb.
    exists [rev cur]. reflexivity.
  - destruct (c =? sep).
    + destruct (IH [] Hb) as [pre Hp]. rewrite Hp. exists (rev cur :: pre). reflexivity.
    + apply IH. exact Hb.
Qed.

Lemma firstn_incl_mono :
  forall (A : Type) (l : list A) a b, (a <= b)%nat -> incl (firstn a l) (firstn b l).
Proof.
  intros A l. induction l as [|x l IH]; intros a b Hab y Hy.
  - rewrite firstn_nil in Hy. destruct Hy.
  - destruct a as [|a]; [destruct Hy|]. destruct b as [|b]; [lia|].
    simpl in *. destruct Hy as [Hy|Hy]; [left; exact Hy|].
    right. apply (IH a b); [lia|exact Hy].
Qed.

(** The digit of ["10"] sits within the first 18 characters of the suffix. *)
Lemma enrich_suffix_digit :
  forall k, (18 <= k)%nat -> numeric_search (firstn k enrich_suffix) = true.
Proof.
  intros k Hk. unfold numeric_search. apply existsb_exists.
  exists 49. split; [|reflexivity].
  apply (firstn_incl_mono _ enrich_suffix 18 k Hk). vm_compute. tauto.
Qed.

(** C6: a validated math item whose text is 1000 letters [a]: the
    enriched text is cut back to those 1000 letters and carries no
    numeral. *)
Lemma ensure_math_long_text_no_numeral :
  validate_question_obj
    (JObj [(lit "text", JStr (repeat 97 1000)); (lit "type", JStr (lit "math"))])
  = Ok (Some (mk_qitem (repeat 97 1000) [] 3 QMath))
  /\ numeric_search (repeat 97 1000) = false
  /\ numeric_search (q_text (ensure_math_has_number (mk_qitem (repeat 97 1000) [] 3 QMath)))
     = false.
Proof. vm_compute. repeat split; reflexivity. Qed.

Lemma existsb_incl_false :
  forall (A : Type) (f : A -> bool) (l1 l2 : list A),
    incl l1 l2 -> existsb f l2 = false -> existsb f l1 = false.
Proof.
  intros A f l1 l2 Hi H. apply not_true_iff_false. intros H1.
  apply existsb_exists in H1 as [x [Hx Hf]].
  apply not_true_iff_false in H. apply H. apply existsb_exists. exists x. split; [apply Hi, Hx|exact Hf].
Qed.

(** The first 17 characters of the suffix ([" For example: If "]) hold no
    digit. *)
Lemma enrich_suffix_no_digit :
  forall k, (k <= 17)%nat -> numeric_search (firstn k enrich_suffix) = false.
Proof.
  intros k Hk. unfold numeric_search.
  apply (existsb_incl_false _ _ _ (firstn 17 enrich_suffix)).
  - apply firstn_incl_mono. exact Hk.
  - vm_compute. reflexivity.
Qed.

(** C6 (code bug): for a math item whose stripped text has no digit,
    ["numbers"] becomes the keywords (when they were empty) or their last
    comma-separated entry, and the enriched text, cut to 1000 characters,
    contains a numeral exactly when the stripped text has at most 982
    characters: for a longer text the cut drops the suffix's digits, so
    the enrichment does not give the question numeric content. *)
Theorem ensure_math_numeral :
  forall q : qitem,
    q_type q = QMath -> numeric_search (strip (q_text q)) = false ->
    q_keywords (ensure_math_has_number q)
      = (if null (q_keywords q) then lit "numbers" else q_keywords q ++ lit ",numbers")
    /\ (exists pre, split_on 44 (q_keywords (ensure_math_has_number q)) = pre ++ [lit "numbers"])
    /\ (numeric_search (q_text (ensure_math_has_number q)) = true
        <-> (length (strip (q_text q)) <= 982)%nat).
Proof.
  intros q Ht Hn. unfold ensure_math_has_number. rewrite Ht, Hn. cbn [q_keywords q_text].
  split; [reflexivity|]. split.
  - destruct (null (q_keywords q)).
    + exists []. vm_compute. reflexivity.
    + unfold split_on. replace (lit ",numbers") with (44 :: lit "numbers") by reflexivity.
      exact (split_on_aux_last 44 (q_keywords q) (lit "numbers") [] eq_refl).
  - unfold take. change (Z.to_nat 1000) with 1000%nat. split.
    + intros Hd. destruct (Nat.le_gt_cases (length (strip (q_text q))) 982) as [Hl|Hl]; [exact Hl|].
      exfalso. rewrite firstn_app in Hd. unfold numeric_search in Hd.
      rewrite existsb_app in Hd. apply orb_true_iff in Hd as [Hd|Hd].
      * rewrite (existsb_incl_false _ _ (firstn 1000 (strip (q_text q))) (strip (q_text q))) in Hd;
          [discriminate| |exact Hn].
        intros x Hx. rewrite <- (firstn_skipn 1000 (strip (q_text q))).
        apply in_or_app. left. exact Hx.
      * rewrite enrich_suffix_no_digit in Hd; [discriminate|lia].
    + intros Hlen. rewrite firstn_app, firstn_all2 by lia.
      unfold numeric_search. rewrite existsb_app. apply orb_true_iff. right.
      apply enrich_suffix_digit. lia.
Qed.

Lemma ensure_math_numeral_witness :
  numeric_search (q_text (ensure_math_has_number
                            (mk_qitem (lit "Find the average speed") (lit "speed") 3 QMath))) = true
  /\ q_keywords (ensure_math_has_number
                   (mk_qitem (lit "Find the average speed") (lit "speed") 3 QMath))
     = lit "speed,numbers"
  /\ numeric_search (q_text (ensure_math_has_number (mk_qitem (repeat 97 1000) [] 3 QMath)))
     = false.
Proof.
  assert (H1 : q_type (mk_qitem (lit "Find the average speed") (lit "speed") 3 QMath) = QMath)
    by reflexivity.
  assert (H2 : numeric_search (strip (lit "Find the average speed")) = false)
    by (vm_compute; reflexivity).
  destruct (ensure_math_numeral (mk_qitem (lit "Find the average speed") (lit "speed") 3 QMath)
              H1 H2) as (Hk & _ & Hd).
  assert (H3 : q_type (mk_qitem (repeat 97 1000) [] 3 QMath) = QMath) by reflexivity.
  assert (H4 : numeric_search (strip (repeat 97 1000)) = false) by (vm_compute; reflexivity).
  destruct (ensure_math_numeral (mk_qitem (repeat 97 1000) [] 3 QMath) H3 H4) as (_ & _ & Hd').
  split; [apply Hd; vm_compute; lia|]. split; [rewrite Hk; reflexivity|].
  apply not_true_iff_false. intros Hc. apply Hd' in Hc. vm_compute in Hc. lia.
Defined.

(* ------------------------------------------------------------------ *)
(** ** Session suggestions *)

Lemma ins_by_length : forall ge x l, length (ins_by ge x l) = S (length l).
Proof.
  intros ge x l. induction l as [|y l IH]; simpl; [reflexivity|].
  destruct (ge (a_score y) (a_score x)); simpl; [rewrite IH|]; reflexivity.
Qed.

Lemma ins_by_in : forall ge x l y, In y (ins_by ge x l) <-> y = x \/ In y l.
Proof.
  intros ge x l y. induction l as [|z l IH]; simpl; [intuition congruence|].
  destruct (ge (a_score z) (a_score x)); simpl; [rewrite IH|]; intuition congruence.
Qed.

Lemma sort_by_acc :
  forall ge l acc,
    length (fold_left (fun acc x => ins_by ge x acc) l acc) = (length acc + length l)%nat
    /\ (forall y, In y (fold_left (fun acc x => ins_by ge x acc) l acc) <-> In y acc \/ In y l).
Proof.
  intros ge l. induction l as [|x l IH]; intros acc; simpl.
  - split; [lia|tauto].
  - destruct (IH (ins_by ge x acc)) as [Hl Hi]. split.
    + rewrite Hl, ins_by_length. lia.
    + intros y. rewrite Hi, ins_by_in. intuition congruence.
Qed.

Lemma sort_by_length : forall ge l, length (sort_by ge l) = length l.
Proof. intros. unfold sort_by. apply (sort_by_acc ge l []). Qed.

Lemma sort_by_in : forall ge l y, In y (sort_by ge l) <-> In y l.
Proof. intros. unfold sort_by. rewrite (proj2 (sort_by_acc ge l []) y). simpl. tauto. Qed.

(** Slicing every question text succeeds when none of them is [None]. *)
Lemma heads120_ok :
  forall l, (forall a, In a l -> a_question_text a <> None) ->
    exists r, heads120 l = Ok r /\ length r = length l.
Proof.
  intros l. induction l as [|a l IH]; intros H; simpl.
  - exists []. split; reflexivity.
  - destruct IH as [r [Hr Hl]]; [intros b Hb; apply H; right; exact Hb|].
    destruct (a_question_text a) as [s|] eqn:Ea;
      [|exfalso; apply (H a); [left; reflexivity|exact Ea]].
    rewrite Hr. exists (JStr (take 120 s) :: r). simpl. split; [reflexivity|congruence].
Qed.

Lemma in_firstn_in : forall (A : Type) k (l : list A) x, In x (firstn k l) -> In x l.
Proof. intros A k l x H. rewrite <- (firstn_skipn k l). apply in_or_app. left. exact H. Qed.

Section SortBy.
Variable ge : Z -> Z -> bool.
Hypothesis ge_total : forall u v, ge u v = false -> ge v u = true.
Let R (a b : answer) : Prop := ge (a_score a) (a_score b) = true.

Lemma ins_by_hdrel : forall x l y, HdRel R y l -> R y x -> HdRel R y (ins_by ge x l).
Proof.
  intros x l y Hh Hr. destruct l as [|z l]; simpl; [constructor; exact Hr|].
  destruct (ge (a_score z) (a_score x)); constructor; [inversion Hh; assumption|exact Hr].
Qed.

Lemma ins_by_sorted : forall x l, Sorted R l -> Sorted R (ins_by ge x l).
Proof.
  intros x l. induction l as [|y l IH]; intros Hs; simpl; [repeat constructor|].
  apply Sorted_inv in Hs as [Hs Hh].
  destruct (ge (a_score y) (a_score x)) eqn:E.
  - constructor; [apply IH, Hs|apply ins_by_hdrel; [exact Hh|exact E]].
  - constructor; [constructor; [exact Hs|exact Hh]|constructor; apply ge_total, E].
Qed.

Lemma ins_by_perm : forall x l, Permutation (ins_by ge x l) (x :: l).
Proof.
  intros x l. induction l as [|y l IH]; simpl; [reflexivity|].
  destruct (ge (a_score y) (a_score x)); [|reflexivity].
  rewrite IH. apply perm_swap.
Qed.

Lemma sort_by_sorted_perm : forall l acc, Sorted R acc ->
  Sorted R (fold_left (fun acc x => ins_by ge x acc) l acc)
  /\ Permutation (fold_left (fun acc x => ins_by ge x acc) l acc) (rev l ++ acc).
Proof.
  induction l as [|x l IH]; intros acc Hs; simpl; [split; [exact Hs|reflexivity]|].
  destruct (IH (ins_by ge x acc) (ins_by_sorted x acc Hs)) as [H1 H2].
  split; [exact H1|]. rewrite H2, ins_by_perm, <- app_assoc. simpl.
  apply Permutation_app_head. reflexivity.
Qed.

Lemma strongly_sorted_app : forall l0 l1, StronglySorted R (l0 ++ l1) ->
  forall a b, In a l0 -> In b l1 -> R a b.
Proof.
  induction l0 as [|x l0 IH]; intros l1 Hss a b Ha Hb; [destruct Ha|].
  apply StronglySorted_inv in Hss as [Hss Hf]. destruct Ha as [<-|Ha].
  - rewrite Forall_forall in Hf. apply Hf, in_or_app. right. exact Hb.
  - eapply IH; eauto.
Qed.

Lemma sort_by_ranked : forall l k,
  (forall u v w, ge u v = true -> ge v w = true -> ge u w = true) ->
  Permutation l (firstn k (sort_by ge l) ++ skipn k (sort_by ge l))
  /\ forall a b, In a (firstn k (sort_by ge l)) -> In b (skipn k (sort_by ge l)) -> R a b.
Proof.
  intros l k Htr. destruct (sort_by_sorted_perm l [] (Sorted_nil _)) as [Hs Hp].
  fold (sort_by ge l) in Hs, Hp. rewrite app_nil_r in Hp. split.
  - rewrite firstn_skipn, Hp. apply Permutation_rev.
  - assert (Hss : StronglySorted R (sort_by ge l)).
    { apply Sorted_StronglySorted; [red; intros a b c Hab Hbc; exact (Htr _ _ _ Hab Hbc)|exact Hs]. }
    rewrite <- (firstn_skipn k (sort_by ge l)) in Hss.
    intros a b Ha Hb. exact (strongly_sorted_app _ _ Hss a b Ha Hb).
Qed.
End SortBy.

Lemma heads120_map : forall l, (forall a, In a l -> a_question_text a <> None) ->
  heads120 l = Ok (map head120 l).
Proof.
  induction l as [|a l IH]; intros H; [reflexivity|].
  cbn [heads120 map]. rewrite IH by (intros b Hb; apply H; right; exact Hb).
  destruct (a_question_text a) as [s|] eqn:Ea.
  - assert (E : head120 a = JStr (take 120 s)) by (unfold head120; rewrite Ea; reflexivity).
    rewrite E. reflexivity.
  - exfalso. apply (H a); [left; reflexivity|exact Ea].
Qed.

(** The fallback lists: the question texts of the first 3 answers by
    decreasing score and of the first 5 by increasing score. *)
Lemma fallback_lists_ranked :
  forall answers, (forall a, In a answers -> a_question_text a <> None) ->
    exists top rest bottom rest',
      heads120 (firstn 3 (sort_desc answers)) = Ok (map head120 top)
      /\ heads120 (firstn 5 (sort_asc answers)) = Ok (map head120 bottom)
      /\ length top = Nat.min 3 (length answers)
      /\ length bottom = Nat.min 5 (length answers)
      /\ Permutation answers (top ++ rest)
      /\ (forall a b, In a top -> In b rest -> a_score b <= a_score a)
      /\ Permutation answers (bottom ++ rest')
      /\ (forall a b, In a bottom -> In b rest' -> a_score a <= a_score b).
Proof.
  intros answers Hq.
  destruct (sort_by_ranked (fun y x => x <=? y)
              ltac:(intros u v E; apply Z.leb_gt in E; apply Z.leb_le; lia)
              answers 3 ltac:(intros u v w E1 E2; apply Z.leb_le in E1, E2; apply Z.leb_le; lia))
    as [P1 R1].
  destruct (sort_by_ranked (fun y x => y <=? x)
              ltac:(intros u v E; apply Z.leb_gt in E; apply Z.leb_le; lia)
              answers 5 ltac:(intros u v w E1 E2; apply Z.leb_le in E1, E2; apply Z.leb_le; lia))
    as [P2 R2].
  exists (firstn 3 (sort_desc answers)), (skipn 3 (sort_desc answers)),
         (firstn 5 (sort_asc answers)), (skipn 5 (sort_asc answers)).
  assert (Hs : forall ge k a, In a (firstn k (sort_by ge answers)) -> a_question_text a <> None).
  { intros ge k a Ha. apply Hq. apply (sort_by_in ge). eapply in_firstn_in. exact Ha. }
  unfold sort_desc, sort_asc in *.
  rewrite (heads120_map _ (Hs _ 3%nat)), (heads120_map _ (Hs _ 5%nat)).
  split; [reflexivity|]. split; [reflexivity|].
  rewrite !length_firstn, !sort_by_length.
  split; [reflexivity|]. split; [reflexivity|].
  split; [exact P1|]. split.
  { intros a b Ha Hb. apply Z.leb_le. apply (R1 a b Ha Hb). }
  split; [exact P2|].
  intros a b Ha Hb. apply Z.leb_le. apply (R2 a b Ha Hb).
Qed.

(** C7 (as claimed, refuted): a reply parsed as [{"strengths": null}]
    yields [strengths = None] and an empty [overall_tip]: the values the
    service gives (or the empty defaults) are passed through as they are. *)
Lemma suggestions_client_null_kept :
  generate_session_suggestions (fun _ => SObject [(lit "strengths", JNull)]) []
  = Ok [(k_strengths, JNull); (k_improvements, JArr []);
        (k_overall_tip, JStr []); (k_resources, JArr [])].
Proof. vm_compute. reflexivity. Qed.

(** C7 (amended): when every answer has a question text, the result has
    the four keys [strengths], [improvements], [overall_tip] and
    [resources]. If the service's reply parses to an object, each value is
    that object's value for the key (possibly null) or else [[]] (the empty string for
    [overall_tip]); if the call or the parsing fails, [strengths] and
    [improvements] list the question texts (cut to 120 characters) of
    [min 3 len] answers scoring at least as much as every other answer and
    of [min 5 len] answers scoring at most as much as every other answer,
    and the tip and resources are the fixed fallbacks. *)
Theorem suggestions_keys_present :
  forall (sclient : list (pystr * pystr * Z * pystr) -> sresp) (answers : list answer),
    (forall a, In a answers -> a_question_text a <> None) ->
    exists d, generate_session_suggestions sclient answers = Ok d
    /\ (forall k, In k [k_strengths; k_improvements; k_overall_tip; k_resources] ->
                  exists v, dict_get d k = Some v)
    /\ match sclient (map prompt_item answers) with
       | SObject kv =>
           dict_get d k_strengths = Some (get_or kv k_strengths (JArr []))
           /\ dict_get d k_improvements = Some (get_or kv k_improvements (JArr []))
           /\ dict_get d k_overall_tip = Some (get_or kv k_overall_tip (JStr []))
           /\ dict_get d k_resources = Some (get_or kv k_resources (JArr []))
       | SRaise =>
           exists top rest bottom rest',
             d = [(k_strengths, JArr (map head120 top));
                  (k_improvements, JArr (map head120 bottom));
                  (k_overall_tip, JStr fallback_tip);
                  (k_resources, JArr fallback_resources)]
             /\ length top = Nat.min 3 (length answers)
             /\ length bottom = Nat.min 5 (length answers)
             /\ Permutation answers (top ++ rest)
             /\ (forall a b, In a top -> In b rest -> a_score b <= a_score a)
             /\ Permutation answers (bottom ++ rest')
             /\ (forall a b, In a bottom -> In b rest' -> a_score a <= a_score b)
       end.
Proof.
  intros sclient answers H. unfold generate_session_suggestions.
  destruct (sclient (map prompt_item answers)) as [|kv].
  - destruct (fallback_lists_ranked answers H)
      as (top & rest & bottom & rest' & H1 & H2 & Hr).
    rewrite H1, H2.
    eexists. split; [reflexivity|]. split.
    + intros k Hk. simpl in Hk. destruct Hk as [<-|[<-|[<-|[<-|[]]]]]; eexists; reflexivity.
    + exists top, rest, bottom, rest'. split; [reflexivity|exact Hr].
  - eexists. split; [reflexivity|]. split.
    + intros k Hk. simpl in Hk. destruct Hk as [<-|[<-|[<-|[<-|[]]]]]; eexists; reflexivity.
    + repeat split; reflexivity.
Qed.

Lemma suggestions_keys_present_witness :
  (forall a, In a [mk_answer (Some (lit "What is REST?")) (Some (lit "An API style")) 7 None]
             -> a_question_text a <> None)
  /\ exists d,
       generate_session_suggestions (fun _ => SRaise)
         [mk_answer (Some (lit "What is REST?")) (Some (lit "An API style")) 7 None] = Ok d
       /\ (forall k, In k [k_strengths; k_improvements; k_overall_tip; k_resources] ->
                     exists v, dict_get d k = Some v).
Proof.
  assert (H : forall a, In a [mk_answer (Some (lit "What is REST?")) (Some (lit "An API style")) 7 None]
                        -> a_question_text a <> None)
    by (intros a [<-|[]]; discriminate).
  split; [exact H|].
  destruct (suggestions_keys_present (fun _ => SRaise)
              [mk_answer (Some (lit "What is REST?")) (Some (lit "An API style")) 7 None] H)
    as (d & Hd & Hk & _).
  exists d. split; [exact Hd|exact Hk].
Defined.

(* ------------------------------------------------------------------ *)
(** ** The generator without the service *)

Lemma mbind_ok {A B : Type} (m : M A) (k : A -> M B) s a s' :
  m s = (Ok a, s') -> mbind m k s = k a s'.
Proof. intros H. unfold mbind. rewrite H. reflexivity. Qed.

(** A failing first call ends the main loop with nothing collected. *)
Lemma main_loop_no_service :
  forall role n d fuel s, exists s',
    main_loop (fun _ => GCallFail) role n d fuel (mk_cstate [] [] 0) s
    = (Ok (mk_cstate [] [] 0), s').
Proof.
  intros role n d fuel s. destruct fuel as [|f]; [exists s; reflexivity|].
  cbn [main_loop]. destruct (n <=? zlen (c_collected (mk_cstate [] [] 0))).
  - exists s. reflexivity.
  - eexists. unfold mbind, call_client. reflexivity.
Qed.

Lemma enforce_empty :
  forall gclient role n d s, enforce_role_allowed_types gclient role n d [] s = (Ok [], s).
Proof.
  intros. unfold enforce_role_allowed_types. cbn [filter].
  change (Z.to_nat (Z.max 2 (zlen (@nil qitem) * 3))) with 2%nat.
  unfold mbind. cbn [repl_loop]. change (0 <? zlen (@nil qitem)) with false.
  unfold mret. rewrite firstn_nil. reflexivity.
Qed.

Lemma stub_call_run :
  forall draws role d s, exists d1 d2 d3 d4 d5 d6 s',
    stub_call draws role d s
      = (Ok (generate_question_stub (rk role) d d1 d2 d3 d4 d5 d6), s')
    /\ gs_calls s' = gs_calls s.
Proof. intros. do 7 eexists. split; reflexivity. Qed.

Lemma stub_item_shape :
  forall dev seen st item sig, stub_item dev seen st = (item, sig) ->
    exists text, (text = s_text st \/ text = s_text st ++ lit " (variant)")
    /\ item = mk_qitem (strip text) (s_keywords st) (s_difficulty st)
                (if is_math_question_textual text then QMath else QReasoning).
Proof.
  intros dev seen st item sig H. unfold stub_item in H.
  destruct (existsb (pystr_eqb (signature_of_text (s_text st))) seen && negb dev);
    injection H as <- _; eexists; (split; [|reflexivity]); tauto.
Qed.

(** The backfill appends exactly [k] stub items and never raises. *)
Lemma backfill_run :
  forall draws dev role d k seen final s, exists items s',
    backfill draws dev role d k seen final s = (Ok (final ++ items), s')
    /\ length items = k
    /\ Forall (fun q => exists d1 d2 d3 d4 d5 d6,
                 let st := generate_question_stub (rk role) d d1 d2 d3 d4 d5 d6 in
                 exists text, (text = s_text st \/ text = s_text st ++ lit " (variant)")
                 /\ q = mk_qitem (strip text) (s_keywords st) (s_difficulty st)
                          (if is_math_question_textual text then QMath else QReasoning)) items.
Proof.
  intros draws dev role d k. induction k as [|k IH]; intros seen final s.
  - exists [], s. rewrite app_nil_r. split; [reflexivity|]. split; [reflexivity|constructor].
  - destruct (stub_call_run draws role d s) as (d1 & d2 & d3 & d4 & d5 & d6 & s1 & Hs & _).
    cbn [backfill]. unfold mbind at 1. rewrite Hs.
    destruct (stub_item dev seen (generate_question_stub (rk role) d d1 d2 d3 d4 d5 d6))
      as [item sig] eqn:Ei.
    destruct (IH (sig :: seen) (final ++ [item]) s1) as (items & s2 & Hb & Hl & Hf).
    exists (item :: items), s2. rewrite Hb, <- app_assoc. split; [reflexivity|].
    split; [simpl; congruence|]. constructor; [|exact Hf].
    exists d1, d2, d3, d4, d5, d6. exact (stub_item_shape _ _ _ _ _ Ei).
Qed.

(** C3: when every call to the service fails, [generate_questions_groq]
    returns without raising, for any role, any [n >= 0] and any
    difficulty; the result has exactly [n] items (so at most [n]), each
    built from a [generate_question_stub] draw (its text, possibly with
    [" (variant)"] appended and stripped) with its type inferred from
    that text by [_is_math_question_textual]. *)
Theorem generate_no_service_stubs :
  forall (draws : nat -> Z) (DEV_FORCE_CREATE : bool) (role : pystr) (n difficulty : Z),
    0 <= n ->
    exists items,
      fst (generate_questions_groq (fun _ => GCallFail) draws DEV_FORCE_CREATE role n difficulty)
        = Ok items
      /\ zlen items = n
      /\ Forall (fun q => exists d1 d2 d3 d4 d5 d6,
                   let st := generate_question_stub (rk role) difficulty d1 d2 d3 d4 d5 d6 in
                   exists text, (text = s_text st \/ text = s_text st ++ lit " (variant)")
                   /\ q = mk_qitem (strip text) (s_keywords st) (s_difficulty st)
                            (if is_math_question_textual text then QMath else QReasoning)) items.
Proof.
  intros draws dev role n d Hn. unfold generate_questions_groq, generate_m.
  destruct (main_loop_no_service role n d (Z.to_nat (Z.max 3 (n * 3))) (mk_gstate [] 0))
    as [s1 H1].
  rewrite (mbind_ok _ _ _ _ _ H1). cbn [c_collected]. rewrite firstn_nil.
  rewrite (mbind_ok _ _ _ _ _ (enforce_empty _ role n d s1)).
  destruct (backfill_run draws dev role d (Z.to_nat (n - zlen (@nil qitem))) [] [] s1)
    as (items & s2 & Hb & Hl & Hf).
  destruct (Z.ltb_spec (zlen (@nil qitem)) n) as [Hlt|Hge].
  - rewrite (mbind_ok _ _ _ _ _ Hb). unfold mret. cbn [fst app]. exists items.
    assert (Hlen : length items = Z.to_nat n)
      by (rewrite Hl; unfold zlen; simpl length; f_equal; lia).
    rewrite firstn_all2 by lia. split; [reflexivity|]. split; [|exact Hf].
    unfold zlen. rewrite Hlen. lia.
  - unfold zlen in Hge. simpl in Hge. assert (n = 0) by lia. subst n.
    exists []. split; [reflexivity|]. split; [reflexivity|constructor].
Qed.

Lemma generate_no_service_stubs_witness :
  0 <= 2 /\ exists items,
    fst (generate_questions_groq (fun _ => GCallFail) (fun _ => 0) false (lit "hr") 2 3) = Ok items
    /\ zlen items = 2.
Proof.
  split; [lia|].
  destruct (generate_no_service_stubs (fun _ => 0) false (lit "hr") 2 3 ltac:(lia))
    as (items & H1 & H2 & _).
  exists items. split; [exact H1|exact H2].
Defined.

(* ------------------------------------------------------------------ *)
(** ** The generator: size, types and signatures *)

Lemma generate_m_at_most :
  forall gclient draws dev role n d s items s',
    generate_m gclient draws dev role n d s = (Ok items, s') ->
    (length items <= Z.to_nat n)%nat.
Proof.
  intros gclient draws dev role n d s items s' H. unfold generate_m, mbind in H.
  destruct (main_loop gclient role n d (Z.to_nat (Z.max 3 (n * 3))) (mk_cstate [] [] 0) s)
    as [[cs|e] s1]; [|discriminate].
  destruct (enforce_role_allowed_types gclient role n d (firstn (Z.to_nat n) (c_collected cs)) s1)
    as [[final|e] s2]; [|discriminate].
  destruct ((if zlen final <? n
             then backfill draws dev role d (Z.to_nat (n - zlen final)) (c_seen cs) final
             else mret final) s2) as [[final'|e] s3]; [|discriminate].
  unfold mret in H. injection H as <- _. rewrite length_firstn. lia.
Qed.

(** The part of the invariant that holds: a returned list has at most
    [n] items. *)
Lemma generate_at_most_n :
  forall gclient draws dev role n d items,
    fst (generate_questions_groq gclient draws dev role n d) = Ok items ->
    (length items <= Z.to_nat n)%nat.
Proof.
  intros gclient draws dev role n d items H. unfold generate_questions_groq in H.
  destruct (generate_m gclient draws dev role n d (mk_gstate [] 0)) as [r s] eqn:E.
  cbn [fst] in H. subst r. eapply generate_m_at_most. exact E.
Qed.

(** C1 (code bug): role ["hr"] allows only ["reasoning"] and has math
    ratio 0, yet with a service whose every call fails the backfill
    returns the stub ["Tell me about a time you handled a production
    outage."], which is classified as math (["time"] is a math word);
    and for [n = 3] the backfill returns the same stub text a third time
    with the same signature as the second (the [" (variant)"] suffix is
    added once, and the backfill ignores the allowed types). *)
Theorem generate_hr_backfill_violations :
  normalize_role_key (lit "hr") = RHr /\ math_needed_total RHr 1 = 0
  /\ match fst (generate_questions_groq (fun _ => GCallFail) (fun _ => 0) false (lit "hr") 1 3) with
     | Ok [q] => q_text q = lit "Tell me about a time you handled a production outage."
                 /\ q_type q = QMath /\ type_allowed RHr (q_type q) = false
                 /\ is_math_question q = true
     | _ => False
     end
  /\ match fst (generate_questions_groq (fun _ => GCallFail) (fun _ => 1) false (lit "hr") 3 3) with
     | Ok [q1; q2; q3] => signature_of_text (q_text q2) = signature_of_text (q_text q3)
                          /\ q_text q1 <> q_text q2
     | _ => False
     end.
Proof. vm_compute. repeat split; try reflexivity; discriminate. Qed.

(** C10 (code bug): an item of the service's array whose ["type"] is a
    truthy non-string (here the number 1) makes [_validate_question_obj]
    call [.lower()] on it; the [AttributeError] escapes
    [generate_questions_groq], which returns no list at all. *)
Theorem generate_raises_on_nonstring_type :
  fst (generate_questions_groq
         (fun _ => GArray [JObj [(lit "text", JStr (lit "Explain caching."));
                                 (lit "type", JInt 1)]])
         (fun _ => 0) false (lit "tech") 3 3) = Raise AttributeError.
Proof. vm_compute. reflexivity. Qed.

(* ------------------------------------------------------------------ *)
(** ** Math quota *)

Lemma fl64_div_nonneg :
  forall a b, 0 < b -> 0 <= fnum (fl64_div a b) /\ 0 < fden (fl64_div a b).
Proof.
  intros a b Hb. unfold fl64_div.
  destruct (Z.leb_spec a 0) as [Ha|Ha]; [simpl; lia|].
  destruct (Z.leb_spec 0 (f64_scale a b)) as [Hs|Hs]; cbn [fnum fden].
  - assert (0 < 2 ^ f64_scale a b) by (apply Z.pow_pos_nonneg; lia).
    split; [apply rne_div_nonneg; nia|lia].
  - assert (0 < 2 ^ (- f64_scale a b)) by (apply Z.pow_pos_nonneg; lia).
    split; [|lia]. apply Z.mul_nonneg_nonneg; [apply rne_div_nonneg; nia|lia].
Qed.

Lemma ratio_nonneg : forall k, 0 <= fnum (ROLE_MATH_RATIO k) /\ 0 < fden (ROLE_MATH_RATIO k).
Proof. intros k. destruct k; apply fl64_div_nonneg; lia. Qed.

(** For [n >= 0] the [max(0, ...)] is inert. *)
Lemma math_needed_total_round :
  forall k n, 0 <= n ->
    math_needed_total k n =
      py_round (fl64_div (fnum (fl64_div n 1) * fnum (ROLE_MATH_RATIO k))
                         (fden (fl64_div n 1) * fden (ROLE_MATH_RATIO k))).
Proof.
  intros k n Hn. unfold math_needed_total.
  destruct (fl64_div_nonneg n 1 ltac:(lia)) as [H1 H2].
  destruct (ratio_nonneg k) as [H3 H4].
  destruct (fl64_div_nonneg (fnum (fl64_div n 1) * fnum (ROLE_MATH_RATIO k))
              (fden (fl64_div n 1) * fden (ROLE_MATH_RATIO k)) ltac:(nia)) as [H5 H6].
  assert (0 <= py_round (fl64_div (fnum (fl64_div n 1) * fnum (ROLE_MATH_RATIO k))
                         (fden (fl64_div n 1) * fden (ROLE_MATH_RATIO k))))
    by (unfold py_round; apply rne_div_nonneg; assumption).
  lia.
Qed.

Lemma absorb_math_nonneg :
  forall n parsed cs cs', absorb n parsed cs = Ok cs' -> 0 <= c_math cs -> 0 <= c_math cs'.
Proof.
  intros n parsed. induction parsed as [|obj rest IH]; intros cs cs' H Hc; simpl in H.
  - injection H as <-. exact Hc.
  - destruct (validate_question_obj obj) as [[v0|]|e]; [|eapply IH; eauto|discriminate].
    destruct (existsb _ (c_seen cs)); [eapply IH; eauto|].
    assert (Hm : 0 <= c_math (mk_cstate (c_collected cs ++ [ensure_math_has_number v0])
                   (signature_of_text (q_text (ensure_math_has_number v0)) :: c_seen cs)
                   (if is_mathb (ensure_math_has_number v0) then c_math cs + 1 else c_math cs)))
      by (cbn [c_math]; destruct (is_mathb _); lia).
    destruct (n <=? _); [injection H as <-; exact Hm|]. eapply IH; eauto.
Qed.

Lemma swap_step_math_nonneg :
  forall n m cs, 0 <= c_math cs -> 0 <= c_math (swap_step n m cs).
Proof.
  intros n m cs H. unfold swap_step.
  destruct (_ && _); [cbn [c_math]; unfold zlen; lia|exact H].
Qed.

(** With a quota of 0, every request of the main loop asks for no math
    item. *)
Lemma main_loop_zero_quota :
  forall gclient role n d fuel cs s,
    mnt role n = 0 -> 0 <= c_math cs -> Forall (zero_quota_call d) (gs_calls s) ->
    Forall (zero_quota_call d) (gs_calls (snd (main_loop gclient role n d fuel cs s))).
Proof.
  intros gclient role n d fuel. induction fuel as [|f IH]; intros cs s Hm Hc Hs; [exact Hs|].
  cbn [main_loop]. destruct (Z.leb_spec n (zlen (c_collected cs))) as [Hle|Hlt]; [exact Hs|].
  unfold mbind at 1, call_client.
  assert (Hp : Forall (zero_quota_call d)
     ((build_prompt (capitalize role) (n - zlen (c_collected cs)) d
        (Z.min (n - zlen (c_collected cs)) (Z.max 0 (mnt role n - c_math cs))), 20)
      :: gs_calls s)).
  { constructor; [|exact Hs]. exists (capitalize role), (n - zlen (c_collected cs)).
    cbn [fst]. f_equal. rewrite Hm. lia. }
  set (s1 := mk_gstate _ (gs_draw s)).
  assert (Hs1 : Forall (zero_quota_call d) (gs_calls s1)) by exact Hp.
  clearbody s1. clear Hp.
  destruct (gclient _) as [| |parsed].
  - exact Hs1.
  - apply IH; assumption.
  - unfold mbind, mlift. destruct (absorb n parsed cs) as [cs'|e] eqn:Ea; [|exact Hs1].
    apply IH; [exact Hm| |exact Hs1].
    apply swap_step_math_nonneg. eapply absorb_math_nonneg; eauto.
Qed.

(** Replacement requests always ask for no math item. *)
Lemma repl_loop_zero_quota :
  forall gclient role d fuel kept removed s,
    Forall (zero_quota_call d) (gs_calls s) ->
    Forall (zero_quota_call d) (gs_calls (snd (repl_loop gclient role d fuel kept removed s))).
Proof.
  intros gclient role d fuel. induction fuel as [|f IH]; intros kept removed s Hs; [exact Hs|].
  cbn [repl_loop]. destruct (0 <? removed); [|exact Hs].
  unfold mbind at 1, call_client.
  assert (Hp : Forall (zero_quota_call d)
     ((build_prompt (capitalize (role_key_str (rk role))) removed d 0, 15) :: gs_calls s)).
  { constructor; [|exact Hs]. eexists; eexists; reflexivity. }
  set (s1 := mk_gstate _ (gs_draw s)).
  assert (Hs1 : Forall (zero_quota_call d) (gs_calls s1)) by exact Hp.
  clearbody s1. clear Hp.
  destruct (gclient _) as [| |parsed]; [exact Hs1|exact Hs1|].
  unfold mbind, mlift. destruct (absorb_repl _ parsed kept removed) as [p|e]; [|exact Hs1].
  apply IH. exact Hs1.
Qed.

Lemma enforce_zero_quota :
  forall gclient role n d collected s,
    Forall (zero_quota_call d) (gs_calls s) ->
    Forall (zero_quota_call d)
      (gs_calls (snd (enforce_role_allowed_types gclient role n d collected s))).
Proof.
  intros gclient role n d collected s Hs. unfold enforce_role_allowed_types, mbind at 1.
  pose proof (repl_loop_zero_quota gclient role d
    (Z.to_nat (Z.max 2 (zlen (filter (fun q => is_math_question q
                                               && negb (math_allowed (rk role))) collected) * 3)))
    (filter (fun q => negb (is_math_question q && negb (math_allowed (rk role)))) collected)
    (zlen (filter (fun q => is_math_question q && negb (math_allowed (rk role))) collected))
    s Hs) as H.
  destruct (repl_loop _ _ _ _ _ _ s) as [[kept'|e] s'] eqn:E; exact H.
Qed.

Lemma backfill_calls :
  forall draws dev role d k seen final s,
    gs_calls (snd (backfill draws dev role d k seen final s)) = gs_calls s.
Proof.
  intros draws dev role d k. induction k as [|k IH]; intros seen final s; [reflexivity|].
  cbn [backfill]. unfold mbind at 1.
  destruct (stub_call_run draws role d s) as (d1 & d2 & d3 & d4 & d5 & d6 & s1 & Hst & Hc).
  rewrite Hst.
  destruct (stub_item dev seen (generate_question_stub (rk role) d d1 d2 d3 d4 d5 d6))
    as [item sig].
  rewrite IH. exact Hc.
Qed.

Lemma generate_zero_quota :
  forall gclient draws dev role n d,
    mnt role n = 0 ->
    Forall (zero_quota_call d) (snd (generate_questions_groq gclient draws dev role n d)).
Proof.
  intros gclient draws dev role n d Hm. unfold generate_questions_groq, generate_m.
  set (s0 := mk_gstate [] 0).
  assert (H0 : Forall (zero_quota_call d) (gs_calls s0)) by constructor.
  pose proof (main_loop_zero_quota gclient role n d (Z.to_nat (Z.max 3 (n * 3)))
                (mk_cstate [] [] 0) s0 Hm ltac:(cbn; lia) H0) as H1.
  unfold mbind at 1.
  destruct (main_loop _ _ _ _ _ _ s0) as [[cs|e] s1]; cbn [snd] in H1;
    [|cbn [snd]; apply Forall_rev; exact H1].
  pose proof (enforce_zero_quota gclient role n d (firstn (Z.to_nat n) (c_collected cs)) s1 H1)
    as H2.
  unfold mbind at 1.
  destruct (enforce_role_allowed_types _ _ _ _ _ s1) as [[final|e] s2]; cbn [snd] in H2;
    [|cbn [snd]; apply Forall_rev; exact H2].
  unfold mbind at 1.
  assert (H3 : Forall (zero_quota_call d)
     (gs_calls (snd ((if zlen final <? n
                      then backfill draws dev role d (Z.to_nat (n - zlen final)) (c_seen cs) final
                      else mret final) s2)))).
  { destruct (zlen final <? n); [rewrite backfill_calls; exact H2|exact H2]. }
  destruct ((if zlen final <? n
             then backfill draws dev role d (Z.to_nat (n - zlen final)) (c_seen cs) final
             else mret final) s2) as [[final'|e] s3]; cbn [snd] in H3;
    cbn [snd]; apply Forall_rev; exact H3.
Qed.

(** C8: [math_needed_total] is [round(n * math_ratio)] of the role's
    profile, evaluated in doubles, for every role and every [n >= 0];
    for role ["tech"] (math ratio 0.05) and [n = 5] it is 0, and, whatever
    the service answers, every prompt sent for that request is a
    [_build_prompt] with math quota 0, i.e. carries the
    [- ZERO items ... of type "math"] instruction. *)
Theorem tech_five_zero_math :
  normalize_role_key (lit "tech") = RTechnical
  /\ math_needed_total RTechnical 5 = 0
  /\ (forall k n, 0 <= n ->
        math_needed_total k n =
          py_round (fl64_div (fnum (fl64_div n 1) * fnum (ROLE_MATH_RATIO k))
                             (fden (fl64_div n 1) * fden (ROLE_MATH_RATIO k))))
  /\ (forall gclient draws dev d,
        Forall (fun c => exists r m, fst c = build_prompt r m d 0)
          (snd (generate_questions_groq gclient draws dev (lit "tech") 5 d))).
Proof.
  split; [reflexivity|]. split; [vm_compute; reflexivity|]. split.
  - exact math_needed_total_round.
  - intros. apply generate_zero_quota. vm_compute. reflexivity.
Qed.

Lemma tech_five_zero_math_witness :
  0 <= 10 /\ math_needed_total RTechnical 10 =
    py_round (fl64_div (fnum (fl64_div 10 1) * fnum (ROLE_MATH_RATIO RTechnical))
                       (fden (fl64_div 10 1) * fden (ROLE_MATH_RATIO RTechnical))).
Proof.
  split; [lia|].
  destruct tech_five_zero_math as (_ & _ & H & _).
  apply H. lia.
Defined.

(* ------------------------------------------------------------------ *)
(** ** Fillers *)

(** A token without whitespace never equals ["you know"]: that member of
    [FILLERS] is never matched. *)
Lemma filler_you_know_unreachable :
  forall t, existsb is_space t = false ->
    existsb (pystr_eqb t) FILLERS
    = existsb (pystr_eqb t) (map lit ["um"; "uh"; "like"; "hmm"]%string).
Proof.
  intros t H. unfold FILLERS. cbn [map existsb].
  replace (pystr_eqb t (lit "you know")) with false.
  - reflexivity.
  - symmetry. unfold pystr_eqb.
    destruct (list_eq_dec Z.eq_dec t (lit "you know")) as [->|];
      [vm_compute in H; discriminate|reflexivity].
Qed.

(** C9 (code bug): the answer ["you know what I mean"] (tokens [you],
    [know], [what], [I], [mean]) has filler count 0, because tokens are
    single words and the two-word filler ["you know"] never equals one;
    the score is 50 where counting the phrase once would give 45. *)
Theorem analyze_you_know_not_counted :
  filler_count (map lower (split_ws (lit "you know what I mean"))) = 0
  /\ ev_score (fst (analyze_transcript split_ws (fun _ => None)
                      (lit "you know what I mean") None)) = 50
  /\ Z.max 0 (20 + 5 + (25 - Z.min 10 (1 * 2)) - Z.min 15 (1 * 3)) = 45.
Proof. vm_compute. repeat split; reflexivity. Qed.

Lemma filler_you_know_unreachable_witness :
  existsb is_space (lit "know") = false
  /\ existsb (pystr_eqb (lit "know")) FILLERS
     = existsb (pystr_eqb (lit "know")) (map lit ["um"; "uh"; "like"; "hmm"]%string).
Proof.
  assert (H : existsb is_space (lit "know") = false) by (vm_compute; reflexivity).
  split; [exact H|]. exact (filler_you_know_unreachable (lit "know") H).
Defined.

(* ------------------------------------------------------------------ *)
(** ** Role enforcement *)

Lemma not_math_ensure_id :
  forall v, is_math_question v = false -> ensure_math_has_number v = v.
Proof.
  intros v H. unfold is_math_question in H. apply orb_false_iff in H as [H _].
  unfold ensure_math_has_number. destruct (q_type v); [discriminate|reflexivity].
Qed.

Lemma absorb_repl_no_math :
  forall parsed kept removed r,
    absorb_repl false parsed kept removed = Ok r ->
    Forall (fun q => is_math_question q = false) kept ->
    Forall (fun q => is_math_question q = false) (fst r).
Proof.
  intros parsed. induction parsed as [|obj rest IH]; intros kept removed r H Hk; simpl in H.
  - injection H as <-. exact Hk.
  - destruct (validate_question_obj obj) as [[v|]|e]; [|eapply IH; eauto|discriminate].
    destruct (is_math_question v) eqn:Em; cbn [andb negb] in H; [eapply IH; eauto|].
    rewrite (not_math_ensure_id v Em) in H.
    assert (Hk' : Forall (fun q => is_math_question q = false) (kept ++ [v]))
      by (apply Forall_app; split; [exact Hk|constructor; [exact Em|constructor]]).
    destruct (removed - 1 <=? 0); [injection H as <-; exact Hk'|eapply IH; eauto].
Qed.

Lemma repl_loop_no_math :
  forall gclient role d fuel kept removed s items s',
    math_allowed (rk role) = false ->
    repl_loop gclient role d fuel kept removed s = (Ok items, s') ->
    Forall (fun q => is_math_question q = false) kept ->
    Forall (fun q => is_math_question q = false) items.
Proof.
  intros gclient role d fuel. induction fuel as [|f IH]; intros kept removed s items s' Ha H Hk.
  - cbn in H. injection H as <- _. exact Hk.
  - cbn [repl_loop] in H. destruct (0 <? removed); [|injection H as <- _; exact Hk].
    unfold mbind at 1, call_client in H.
    destruct (gclient _) as [| |parsed]; [injection H as <- _; exact Hk|injection H as <- _; exact Hk|].
    unfold mbind, mlift in H. rewrite Ha in H.
    destruct (absorb_repl false parsed kept removed) as [p|e] eqn:Ep; [|discriminate].
    eapply IH; [exact Ha|exact H|]. eapply absorb_repl_no_math; eauto.
Qed.

Lemma Forall_firstn {A : Type} (P : A -> Prop) k l : Forall P l -> Forall P (firstn k l).
Proof.
  intros H. apply Forall_forall. intros x Hx. rewrite Forall_forall in H. apply H.
  rewrite <- (firstn_skipn k l). apply in_or_app. left. exact Hx.
Qed.

(** X3: for a role whose allowed types exclude math, what
    [enforce_role_allowed_types] returns has at most [n] items and none of
    them is a math question: the kept items are filtered, and replacement
    items that are math are rejected. *)
Theorem enforce_never_math :
  forall gclient role n d collected s items s',
    math_allowed (rk role) = false ->
    enforce_role_allowed_types gclient role n d collected s = (Ok items, s') ->
    (length items <= Z.to_nat n)%nat
    /\ Forall (fun q => is_math_question q = false) items.
Proof.
  intros gclient role n d collected s items s' Ha H.
  unfold enforce_role_allowed_types, mbind in H. rewrite Ha in H.
  destruct (repl_loop gclient role d _ _ _ s) as [[kept'|e] s1] eqn:E; [|discriminate].
  unfold mret in H. injection H as <- _. split; [rewrite length_firstn; lia|].
  apply Forall_firstn. eapply repl_loop_no_math; [exact Ha|exact E|].
  apply Forall_forall. intros q Hq. apply filter_In in Hq as [_ Hq].
  destruct (is_math_question q); [discriminate|reflexivity].
Qed.

Lemma enforce_never_math_witness :
  math_allowed (rk (lit "tech")) = false
  /\ exists items s',
       enforce_role_allowed_types repl_client (lit "tech") 2 3 [math_item] (mk_gstate [] 0)
       = (Ok items, s')
       /\ (length items <= Z.to_nat 2)%nat
       /\ Forall (fun q => is_math_question q = false) items.
Proof.
  assert (Ha : math_allowed (rk (lit "tech")) = false) by (vm_compute; reflexivity).
  split; [exact Ha|].
  destruct (enforce_role_allowed_types repl_client (lit "tech") 2 3 [math_item] (mk_gstate [] 0))
    as [[items|e] s'] eqn:E.
  - exists items, s'. split; [reflexivity|]. exact (enforce_never_math _ _ _ _ _ _ _ _ Ha E).
  - exfalso. vm_compute in E. discriminate.
Defined.

(* ------------------------------------------------------------------ *)
(** ** The main loop keeps signatures distinct *)

Lemma pystr_eqb_true : forall a b, pystr_eqb a b = true <-> a = b.
Proof. intros a b. unfold pystr_eqb. destruct (list_eq_dec Z.eq_dec a b); split; congruence. Qed.

Lemma existsb_eqb_false : forall x l, existsb (pystr_eqb x) l = false -> ~ In x l.
Proof.
  intros x l H Hin. assert (existsb (pystr_eqb x) l = true) by
    (apply existsb_exists; exists x; split; [exact Hin|apply pystr_eqb_true; reflexivity]).
  congruence.
Qed.

Lemma NoDup_snoc {A : Type} (l : list A) x : NoDup l -> ~ In x l -> NoDup (l ++ [x]).
Proof.
  intros H Hn. apply (Permutation_NoDup (Permutation_cons_append l x)). constructor; assumption.
Qed.

Lemma absorb_inv : forall n parsed cs cs', absorb n parsed cs = Ok cs' -> seen_inv cs -> seen_inv cs'.
Proof.
  intros n parsed. induction parsed as [|obj rest IH]; intros cs cs' H Hi; simpl in H.
  - injection H as <-. exact Hi.
  - destruct (validate_question_obj obj) as [[v0|]|e]; [|eapply IH; eauto|discriminate].
    destruct (existsb _ (c_seen cs)) eqn:Ex; [eapply IH; eauto|].
    apply existsb_eqb_false in Ex.
    assert (Hi' : seen_inv (mk_cstate (c_collected cs ++ [ensure_math_has_number v0])
                     (signature_of_text (q_text (ensure_math_has_number v0)) :: c_seen cs)
                     (if is_mathb (ensure_math_has_number v0) then c_math cs + 1 else c_math cs))).
    { destruct Hi as [Hnd Hinc]. unfold seen_inv; cbn [c_collected c_seen]. rewrite map_app.
      split.
      - apply NoDup_snoc; [exact Hnd|]. intros Hin. apply Ex, Hinc, Hin.
      - intros x Hx. apply in_app_or in Hx as [Hx|[Hx|[]]]; [right; apply Hinc, Hx|left; exact Hx]. }
    destruct (n <=? _); [injection H as <-; exact Hi'|eapply IH; eauto].
Qed.

Lemma drop_reasoning_in : forall k l x, In x (drop_reasoning k l) -> In x l.
Proof.
  intros k l. revert k. induction l as [|q l IH]; intros k x H; simpl in H; [exact H|].
  destruct (negb (is_mathb q) && (0 <? k)).
  - right. eapply IH; eauto.
  - destruct H as [H|H]; [left; exact H|right; eapply IH; eauto].
Qed.

Lemma drop_reasoning_nodup : forall k l,
  NoDup (map sig_of l) -> NoDup (map sig_of (drop_reasoning k l)).
Proof.
  intros k l. revert k. induction l as [|q l IH]; intros k H; simpl; [constructor|].
  inversion H as [|? ? Hn Hnd]; subst.
  destruct (negb (is_mathb q) && (0 <? k)); [apply IH; exact Hnd|].
  cbn [map]. constructor; [|apply IH; exact Hnd].
  intros Hin. apply in_map_iff in Hin as [y [Hy Hiny]]. apply Hn.
  rewrite <- Hy. apply in_map. eapply drop_reasoning_in; eauto.
Qed.

Lemma swap_step_inv : forall n m cs, seen_inv cs -> seen_inv (swap_step n m cs).
Proof.
  intros n m cs Hi. unfold swap_step.
  destruct ((n <=? zlen (c_collected cs)) && (c_math cs <? m)); [|exact Hi].
  unfold seen_inv; cbn [c_collected c_seen]. split; [|apply incl_refl].
  apply drop_reasoning_nodup, Hi.
Qed.

Lemma main_loop_inv : forall gclient role n d fuel cs s cs' s',
  main_loop gclient role n d fuel cs s = (Ok cs', s') -> seen_inv cs -> seen_inv cs'.
Proof.
  intros gclient role n d fuel. induction fuel as [|f IH]; intros cs s cs' s' H Hi.
  - cbn in H. injection H as <- _. exact Hi.
  - cbn [main_loop] in H. destruct (n <=? zlen (c_collected cs)).
    { injection H as <- _. exact Hi. }
    unfold mbind at 1, call_client in H.
    destruct (gclient _) as [| |parsed]; [injection H as <- _; exact Hi|eapply IH; eauto|].
    unfold mbind, mlift in H.
    destruct (absorb n parsed cs) as [cs1|e] eqn:Ea; [|discriminate].
    eapply IH; [exact H|]. apply swap_step_inv. eapply absorb_inv; eauto.
Qed.

(** X4: the items the main loop of [generate_questions_groq] collects
    have pairwise distinct signatures, whatever the service returns: an
    item whose signature is in [seen_sigs] is skipped, and the quota swap
    only drops items and resets [seen_sigs] to the signatures kept. *)
Theorem main_loop_distinct_signatures :
  forall gclient role n d fuel s cs s',
    main_loop gclient role n d fuel (mk_cstate [] [] 0) s = (Ok cs, s') ->
    NoDup (map (fun q => signature_of_text (q_text q)) (c_collected cs)).
Proof.
  intros gclient role n d fuel s cs s' H.
  apply (main_loop_inv gclient role n d fuel _ s cs s' H).
  split; [constructor|apply incl_refl].
Qed.

Lemma main_loop_distinct_signatures_witness :
  exists cs s',
    main_loop dup_client (lit "tech") 3 2 1 (mk_cstate [] [] 0) (mk_gstate [] 0) = (Ok cs, s')
    /\ NoDup (map (fun q => signature_of_text (q_text q)) (c_collected cs)).
Proof.
  destruct (main_loop dup_client (lit "tech") 3 2 1 (mk_cstate [] [] 0) (mk_gstate [] 0))
    as [[cs|e] s'] eqn:E.
  - exists cs, s'. split; [reflexivity|]. exact (main_loop_distinct_signatures _ _ _ _ _ _ _ _ E).
  - exfalso. vm_compute in E. discriminate.
Defined.

(* ------------------------------------------------------------------ *)
(** ** Signatures and role keys *)

Lemma is_space_range : forall c, is_space c = true -> c < 65 \/ 122 < c.
Proof.
  intros c H. unfold is_space in H. apply existsb_exists in H as [x [Hx Heq]].
  apply Z.eqb_eq in Heq. subst x. unfold ws_table in Hx.
  repeat (destruct Hx as [Hx|Hx]; [subst; lia|]). destruct Hx.
Qed.

Lemma is_space_lower : forall c, is_space (lower_char c) = is_space c.
Proof.
  intros c. unfold lower_char.
  destruct ((65 <=? c) && (c <=? 90)) eqn:E; [|reflexivity].
  apply andb_true_iff in E as [E1 E2]. apply Z.leb_le in E1. apply Z.leb_le in E2.
  destruct (is_space (c + 32)) eqn:E3; [apply is_space_range in E3; lia|].
  destruct (is_space c) eqn:E4; [apply is_space_range in E4; lia|reflexivity].
Qed.

Lemma split_ws_aux_lower : forall s cur,
  split_ws_aux (lower s) (lower cur) = map lower (split_ws_aux s cur).
Proof.
  induction s as [|c s IH]; intros cur.
  - destruct cur as [|x cur]; [reflexivity|].
    cbn [split_ws_aux lower map]. unfold lower. rewrite map_rev. reflexivity.
  - change (lower (c :: s)) with (lower_char c :: lower s).
    cbn [split_ws_aux]. rewrite is_space_lower. destruct (is_space c).
    + destruct cur as [|x cur]; [apply (IH [])|].
      change (lower (x :: cur)) with (lower_char x :: lower cur).
      cbn [map]. f_equal; [unfold lower; rewrite map_rev; reflexivity|apply (IH [])].
    + apply (IH (c :: cur)).
Qed.

Lemma split_ws_lower : forall s, split_ws (lower s) = map lower (split_ws s).
Proof. intros s. apply (split_ws_aux_lower s []). Qed.

(** X5: two texts whose whitespace-separated words agree up to ASCII
    case have the same signature (leading, trailing and repeated
    whitespace and case do not matter). *)
Theorem signature_same_words :
  forall t1 t2, map lower (split_ws t1) = map lower (split_ws t2) ->
    signature_of_text t1 = signature_of_text t2.
Proof.
  intros t1 t2 H. unfold signature_of_text. rewrite !split_ws_lower, H. reflexivity.
Qed.

Lemma signature_same_words_witness :
  map lower (split_ws (lit "  Explain REST
")) = map lower (split_ws (lit "explain	  rest"))
  /\ signature_of_text (lit "  Explain REST
") = signature_of_text (lit "explain	  rest").
Proof.
  assert (H : map lower (split_ws (lit "  Explain REST
")) = map lower (split_ws (lit "explain	  rest"))) by (vm_compute; reflexivity).
  split; [exact H|exact (signature_same_words _ _ H)].
Defined.

(* role case *)

(* ------------------------------------------------------------------ *)
(** ** Validation of service items *)

(** X7: [_validate_question_obj] raises only [AttributeError], and only
    on a dict whose [type] is truthy and not a string. *)
Theorem validate_raises_iff :
  forall obj e, validate_question_obj obj = Raise e ->
    e = AttributeError /\
    exists kv t, obj = JObj kv /\ dict_get kv (lit "type") = Some t /\ truthy t = true
                 /\ forall s, t <> JStr s.
Proof.
  intros obj e H. unfold validate_question_obj in H.
  destruct obj as [| | | | |kv]; try discriminate.
  destruct (dict_get kv (lit "type")) as [t|] eqn:Et.
  - destruct (truthy t) eqn:Tt.
    + destruct t; try (injection H as <-; split; [reflexivity|];
                       exists kv; eexists; repeat split; [exact Et|exact Tt|discriminate]).
      destruct (dict_get kv (lit "text")) as [[]|]; try discriminate.
      destruct (null s0); discriminate.
    + destruct (dict_get kv (lit "text")) as [[]|]; try discriminate.
      destruct (null s); discriminate.
  - destruct (dict_get kv (lit "text")) as [[]|]; try discriminate.
    destruct (null s); discriminate.
Qed.

Lemma validate_raises_iff_witness :
  validate_question_obj c10_obj = Raise AttributeError
  /\ exists kv t, c10_obj = JObj kv /\ dict_get kv (lit "type") = Some t /\ truthy t = true
                 /\ forall s, t <> JStr s.
Proof.
  assert (H : validate_question_obj c10_obj = Raise AttributeError) by (vm_compute; reflexivity).
  split; [exact H|apply (validate_raises_iff _ _ H)].
Defined.

Lemma coerce_difficulty_range : forall d, 1 <= coerce_difficulty d <= 5.
Proof.
  intros d. unfold coerce_difficulty.
  destruct (match d with JInt z => Some z | JBool b => Some (if b then 1 else 0)
            | JStr s => py_int_of_str s | _ => None end); lia.
Qed.

(** X8: an item [_validate_question_obj] accepts has a difficulty in
    [1, 5], and its text is the stripped value of a non-empty string
    [text] (so a whitespace-only text gives an empty question text). *)
Theorem validate_item_shape :
  forall obj q, validate_question_obj obj = Ok (Some q) ->
    1 <= q_difficulty q <= 5 /\
    exists kv s, obj = JObj kv /\ dict_get kv (lit "text") = Some (JStr s) /\ s <> []
                 /\ q_text q = strip s.
Proof.
  intros obj q H. unfold validate_question_obj in H.
  destruct obj as [| | | | |kv]; try discriminate.
  destruct (match dict_get kv (lit "type") with
            | Some t => if truthy t then match t with JStr s => Ok (lower s) | _ => Raise AttributeError end
                        else Ok [] | None => Ok [] end) as [qt|e]; [|discriminate].
  destruct (dict_get kv (lit "text")) as [[| | | s | |]|] eqn:Etx; try discriminate.
  destruct (null s) eqn:Ns; [discriminate|]. injection H as <-. cbn [q_difficulty q_text].
  split; [apply coerce_difficulty_range|]. exists kv, s. split; [reflexivity|]. split; [exact Etx|].
  split; [intros ->; discriminate|reflexivity].
Qed.

Lemma validate_item_shape_witness :
  exists q, validate_question_obj blank_text_obj = Ok (Some q) /\ q_text q = []
  /\ (1 <= q_difficulty q <= 5 /\
      exists kv s, blank_text_obj = JObj kv /\ dict_get kv (lit "text") = Some (JStr s) /\ s <> []
                   /\ q_text q = strip s).
Proof.
  destruct (validate_question_obj blank_text_obj) as [[q|]|e] eqn:E.
  - exists q. split; [reflexivity|]. split; [|exact (validate_item_shape _ _ E)].
    vm_compute in E. injection E as <-. reflexivity.
  - exfalso. vm_compute in E. discriminate.
  - exfalso. vm_compute in E. discriminate.
Defined.

(* ------------------------------------------------------------------ *)
(** ** Improvement tips *)

(** X9: [analyze_transcript] always returns between 1 and 5 improvement
    tips: three fixed ones for an empty answer, else the service's tips cut
    to 5 or, when there are none, 1 to 3 rule tips. *)
Theorem analyze_tips_count :
  forall nlp tips_client text q,
    let tips := ev_tips (fst (analyze_transcript nlp tips_client text q)) in
    (1 <= length tips <= 5)%nat.
Proof.
  intros nlp tips_client text q tips. subst tips. unfold analyze_transcript.
  destruct (null text); [cbn; lia|]. cbn [fst ev_tips].
  match goal with |- context [null ?a] => destruct (null a) eqn:N end.
  - unfold rule_tips_of. rewrite !length_app. cbn [length].
    destruct (_ <? 25), (negb _ && _); cbn [length]; lia.
  - unfold ai_improvement_tips in *.
    match goal with |- context [tips_client ?p] => destruct (tips_client p) as [[]|] end;
      try discriminate.
    rewrite length_firstn. destruct l; [discriminate|cbn [length]; lia].
Qed.

(* ------------------------------------------------------------------ *)
(** ** Fallback suggestions are ranked by score *)

(** X10: when the service fails, the fallback [strengths] are the question
    texts (cut to 120) of [min 3 len] answers scoring at least as much as
    every other answer, and [improvements] those of [min 5 len] answers
    scoring at most as much as every other answer. *)
Theorem suggestions_fallback_ranked :
  forall sclient answers,
    sclient (map prompt_item answers) = SRaise ->
    (forall a, In a answers -> a_question_text a <> None) ->
    exists top rest bottom rest',
      generate_session_suggestions sclient answers
      = Ok [(k_strengths, JArr (map head120 top));
            (k_improvements, JArr (map head120 bottom));
            (k_overall_tip, JStr fallback_tip);
            (k_resources, JArr fallback_resources)]
      /\ length top = Nat.min 3 (length answers)
      /\ length bottom = Nat.min 5 (length answers)
      /\ Permutation answers (top ++ rest)
      /\ (forall a b, In a top -> In b rest -> a_score b <= a_score a)
      /\ Permutation answers (bottom ++ rest')
      /\ (forall a b, In a bottom -> In b rest' -> a_score a <= a_score b).
Proof.
  intros sclient answers Hc Hq.
  destruct (fallback_lists_ranked answers Hq)
    as (top & rest & bottom & rest' & H1 & H2 & Hr).
  exists top, rest, bottom, rest'.
  unfold generate_session_suggestions. rewrite Hc, H1, H2.
  split; [reflexivity|exact Hr].
Qed.

Lemma suggestions_fallback_ranked_witness :
  (fun _ : list (pystr * pystr * Z * pystr) => SRaise) (map prompt_item six_answers) = SRaise
  /\ (forall a, In a six_answers -> a_question_text a <> None)
  /\ exists top rest bottom rest',
      generate_session_suggestions (fun _ => SRaise) six_answers
      = Ok [(k_strengths, JArr (map head120 top));
            (k_improvements, JArr (map head120 bottom));
            (k_overall_tip, JStr fallback_tip);
            (k_resources, JArr fallback_resources)]
      /\ length top = Nat.min 3 (length six_answers)
      /\ length bottom = Nat.min 5 (length six_answers)
      /\ Permutation six_answers (top ++ rest)
      /\ (forall a b, In a top -> In b rest -> a_score b <= a_score a)
      /\ Permutation six_answers (bottom ++ rest')
      /\ (forall a b, In a bottom -> In b rest' -> a_score a <= a_score b).
Proof.
  assert (H2 : forall a, In a six_answers -> a_question_text a <> None)
    by (intros a Ha; repeat (destruct Ha as [<-|Ha]; [discriminate|]); destruct Ha).
  split; [reflexivity|]. split; [exact H2|].
  exact (suggestions_fallback_ranked (fun _ => SRaise) six_answers eq_refl H2).
Defined.

(* ------------------------------------------------------------------ *)
(** ** Calls to the chat service *)

Lemma attempt_ok_truthy : forall r c, attempt_result r = Ok c -> truthy c = true.
Proof.
  intros r c H. destruct r as [|text data]; [discriminate|]. cbn [attempt_result] in H.
  unfold groq_content in H.
  match type of H with pbind ?m _ = _ => destruct m as [c'|e] end; [|discriminate].
  cbn [pbind] in H. destruct (truthy c') eqn:T; [injection H as <-; exact T|discriminate].
Qed.

(** X11: [call_groq_chat] without an API key raises [RuntimeError] before
    any request. With a key it posts at most 4 times: it returns the first
    truthy content, after exactly the failed attempts before it (each
    followed by a back-off sleep), or, when all 4 attempts fail, re-raises
    the last attempt's exception after 4 posts and 3 sleeps. *)
Theorem call_groq_retries :
  forall api_key post,
    (api_key = [] -> call_groq_chat api_key post = (Raise RuntimeError, []))
    /\ (api_key <> [] ->
    (forall c tr, call_groq_chat api_key post = (Ok c, tr) ->
       exists k, (k < 4)%nat
         /\ (forall j, (1 <= j <= k)%nat -> exists e, attempt_result (post (Z.of_nat j)) = Raise e)
         /\ attempt_result (post (Z.of_nat (S k))) = Ok c
         /\ truthy c = true
         /\ tr = failed_attempts k ++ [EPost (Z.of_nat (S k))])
    /\ (forall e tr, call_groq_chat api_key post = (Raise e, tr) ->
         (forall j, (1 <= j <= 4)%nat -> exists e', attempt_result (post (Z.of_nat j)) = Raise e')
         /\ attempt_result (post 4) = Raise e
         /\ tr = failed_attempts 4)).
Proof.
  intros api_key post. split; [intros ->; reflexivity|]. intros Hk. unfold call_groq_chat.
  destruct (null api_key) eqn:Hn; [destruct api_key; [congruence|discriminate]|].
  cbn -[attempt_result].
  destruct (attempt_result (post 1)) as [c1|e1] eqn:E1.
  { split; [|intros e tr H; simpl in H; discriminate].
    intros c tr H. simpl in H. injection H as <- <-. exists 0%nat.
    split; [lia|]. split; [intros j Hj'; lia|]. split; [exact E1|].
    split; [exact (attempt_ok_truthy _ _ E1)|reflexivity]. }
  destruct (attempt_result (post 2)) as [c2|e2] eqn:E2.
  { split; [|intros e tr H; simpl in H; discriminate].
    intros c tr H. simpl in H. injection H as <- <-. exists 1%nat.
    split; [lia|]. split; [intros j Hj'; replace j with 1%nat by lia; eexists; exact E1|].
    split; [exact E2|]. split; [exact (attempt_ok_truthy _ _ E2)|reflexivity]. }
  destruct (attempt_result (post 3)) as [c3|e3] eqn:E3.
  { split; [|intros e tr H; simpl in H; discriminate].
    intros c tr H. simpl in H. injection H as <- <-. exists 2%nat.
    split; [lia|]. split.
    { intros j Hj'. destruct j as [|[|[|j]]]; try lia; eexists; [exact E1|exact E2]. }
    split; [exact E3|]. split; [exact (attempt_ok_truthy _ _ E3)|reflexivity]. }
  destruct (attempt_result (post 4)) as [c4|e4] eqn:E4.
  { split; [|intros e tr H; simpl in H; discriminate].
    intros c tr H. simpl in H. injection H as <- <-. exists 3%nat.
    split; [lia|]. split.
    { intros j Hj'. destruct j as [|[|[|[|j]]]]; try lia; eexists; [exact E1|exact E2|exact E3]. }
    split; [exact E4|]. split; [exact (attempt_ok_truthy _ _ E4)|reflexivity]. }
  split; [intros c tr H; simpl in H; discriminate|].
  intros e tr H. simpl in H. injection H as <- <-. split; [|split; [reflexivity|reflexivity]].
  intros j Hj'. destruct j as [|[|[|[|[|j]]]]]; try lia; eexists; eassumption.
Qed.

Lemma find_index_app : forall c pre rest, ~ In c pre ->
  find_index c (pre ++ c :: rest) = Some (length pre).
Proof.
  intros c pre rest H. induction pre as [|x pre IH]; simpl.
  - rewrite Z.eqb_refl. reflexivity.
  - destruct (Z.eqb_spec x c) as [->|Hne]; [exfalso; apply H; left; reflexivity|].
    rewrite IH; [reflexivity|intros Hin; apply H; right; exact Hin].
Qed.

Lemma find_index_none : forall c s, ~ In c s -> find_index c s = None.
Proof.
  intros c s H. induction s as [|x s IH]; simpl; [reflexivity|].
  destruct (Z.eqb_spec x c) as [->|Hne]; [exfalso; apply H; left; reflexivity|].
  rewrite IH; [reflexivity|intros Hin; apply H; right; exact Hin].
Qed.

Lemma extract_bracketed_span :
  forall loads pre body post, ~ In 91 pre -> ~ In 93 post ->
    extract_json_array loads (pre ++ 91 :: body ++ 93 :: post)
    = match loads (91 :: body ++ [93]) with
      | Ok (JArr l) => Ok l
      | Ok _ => Raise ValueError
      | Raise e => Raise e
      end.
Proof.
  intros loads pre body post Hpre Hpost. unfold extract_json_array, py_find, py_rfind.
  rewrite (find_index_app 91 pre _ Hpre).
  assert (Hr : rev (pre ++ 91 :: body ++ 93 :: post) = rev post ++ 93 :: rev (pre ++ 91 :: body)).
  { rewrite !rev_app_distr. simpl. rewrite !rev_app_distr. simpl.
    rewrite <- !app_assoc. reflexivity. }
  rewrite Hr, (find_index_app 93 (rev post)) by (rewrite <- in_rev; exact Hpost).
  rewrite length_rev, !length_app. cbn [length]. rewrite length_app. cbn [length].
  replace (Z.of_nat (length pre) =? -1) with false by (symmetry; apply Z.eqb_neq; lia).
  replace (Z.of_nat (length pre + S (length body + S (length post))) - 1 - Z.of_nat (length post) =? -1)
    with false by (symmetry; apply Z.eqb_neq; lia).
  replace (Z.of_nat (length pre + S (length body + S (length post))) - 1 - Z.of_nat (length post)
           <=? Z.of_nat (length pre)) with false by (symmetry; apply Z.leb_gt; lia).
  cbn [orb]. unfold slice.
  replace (Z.to_nat (Z.of_nat (length pre))) with (length pre) by lia.
  rewrite skipn_app, skipn_all, Nat.sub_diag. cbn [skipn app].
  replace (Z.to_nat (Z.of_nat (length pre + S (length body + S (length post))) - 1
                     - Z.of_nat (length post) + 1 - Z.of_nat (length pre)))
    with (S (length body + 1)) by lia.
  cbn [firstn]. rewrite firstn_app, Nat.add_sub_swap, Nat.sub_diag by lia.
  rewrite firstn_all2 by lia. cbn [firstn]. reflexivity.
Qed.

(** X12: [_extract_json_array] raises [ValueError] on a text with no [[];
    on a text with a first [[] and a last []] after it, it parses exactly the
    span from the first [[] to the last []] and returns the list parsed, or
    raises [ValueError] when that span is JSON but not a list. *)
Theorem extract_json_array_span :
  forall loads text,
    (~ In 91 text -> extract_json_array loads text = Raise ValueError)
    /\ (forall pre body post, text = pre ++ 91 :: body ++ 93 :: post ->
         ~ In 91 pre -> ~ In 93 post ->
         extract_json_array loads text
         = match loads (91 :: body ++ [93]) with
           | Ok (JArr l) => Ok l
           | Ok _ => Raise ValueError
           | Raise e => Raise e
           end).
Proof.
  intros loads text. split.
  - intros H. unfold extract_json_array, py_find.
    rewrite (find_index_none 91 text H). reflexivity.
  - intros pre body post -> Hpre Hpost. exact (extract_bracketed_span loads pre body post Hpre Hpost).
Qed.

Lemma chat_shape_content :
  forall text kv ch rest m s,
    dict_get kv (lit "choices") = Some (JArr (JObj ch :: rest)) ->
    dict_get ch (lit "message") = Some (JObj m) ->
    dict_get m (lit "content") = Some (JStr s) -> s <> [] ->
    groq_content text (Some (JObj kv)) = Ok (JStr s).
Proof.
  intros text kv ch rest m s Hc Hm Hs Hne. unfold groq_content.
  assert (Tkv : truthy (JObj kv) = true).
  { cbn. destruct kv; [discriminate|reflexivity]. }
  rewrite Tkv. cbn [py_in pbind]. rewrite Hc. cbn [getitem_str pbind]. rewrite Hc.
  cbn -[dict_get lit py_str truthy].
  unfold py_or, get_none. rewrite Hm.
  assert (Tm : truthy (JObj m) = true).
  { cbn. destruct m; [discriminate|reflexivity]. }
  rewrite Tm, Hs. cbn [truthy]. destruct s; [congruence|]. reflexivity.
Qed.

Lemma call_groq_chat_choices :
  forall api_key post text kv ch rest m s,
    api_key <> [] ->
    post 1 = RReply text (Some (JObj kv)) ->
    dict_get kv (lit "choices") = Some (JArr (JObj ch :: rest)) ->
    dict_get ch (lit "message") = Some (JObj m) ->
    dict_get m (lit "content") = Some (JStr s) -> s <> [] ->
    call_groq_chat api_key post = (Ok (JStr s), [EPost 1]).
Proof.
  intros api_key post text kv ch rest m s Hk Hp Hc Hm Hs Hne. unfold call_groq_chat.
  destruct (null api_key) eqn:Hn; [destruct api_key; [congruence|discriminate]|].
  cbn [call_attempts MAX_RETRIES]. rewrite Hp. cbn [attempt_result].
  rewrite (chat_shape_content text kv ch rest m s Hc Hm Hs Hne). reflexivity.
Qed.

(** X13: the HTTP status is never checked: when the first reply has a
    non-empty body that is not JSON, or a JSON object with neither
    [choices] nor [output] (such as an error body), [call_groq_chat] returns
    the raw body text as the content after one post, with no retry. *)
Theorem call_groq_error_body_returned :
  forall api_key post text data,
    api_key <> [] -> text <> [] ->
    post 1 = RReply text data ->
    (data = None \/ exists kv, data = Some (JObj kv)
                     /\ dict_get kv (lit "choices") = None /\ dict_get kv (lit "output") = None) ->
    call_groq_chat api_key post = (Ok (JStr text), [EPost 1]).
Proof.
  intros api_key post text data Hk Ht Hp Hd. unfold call_groq_chat.
  destruct (null api_key) eqn:Hn; [destruct api_key; [congruence|discriminate]|].
  cbn [call_attempts MAX_RETRIES]. rewrite Hp. cbn [attempt_result].
  assert (Tt : truthy (JStr text) = true) by (cbn; destruct text; [congruence|reflexivity]).
  unfold groq_content.
  destruct Hd as [->|[kv [-> [Hc Ho]]]].
  - cbn [truthy]. cbn [pbind]. rewrite Tt. reflexivity.
  - destruct (truthy (JObj kv)); [|cbn [pbind]; rewrite Tt; reflexivity].
    cbn [py_in pbind]. rewrite Hc, Ho. cbn [pbind]. rewrite Tt. reflexivity.
Qed.

(** X14: a chat-completions reply whose first choice's content holds a
    bracketed JSON list reaches the generator as that list: the content
    returned by [call_groq_chat] goes through [_extract_json_array]. *)
Theorem service_reply_to_batch :
  forall loads api_key post text kv ch rest m pre body post' l,
    api_key <> [] ->
    post 1 = RReply text (Some (JObj kv)) ->
    dict_get kv (lit "choices") = Some (JArr (JObj ch :: rest)) ->
    dict_get ch (lit "message") = Some (JObj m) ->
    dict_get m (lit "content") = Some (JStr (pre ++ 91 :: body ++ 93 :: post')) ->
    ~ In 91 pre -> ~ In 93 post' ->
    loads (91 :: body ++ [93]) = Ok (JArr l) ->
    gresp_of loads (fst (call_groq_chat api_key post)) = GArray l.
Proof.
  intros loads api_key post text kv ch rest m pre body post' l Hk Hp Hc Hm Hs Hpre Hpost Hl.
  rewrite (call_groq_chat_choices api_key post text kv ch rest m _ Hk Hp Hc Hm Hs)
    by (destruct pre; discriminate).
  cbn [fst gresp_of]. rewrite (extract_bracketed_span loads pre body post' Hpre Hpost), Hl.
  reflexivity.
Qed.

Lemma not_in_by_forallb : forall c s, forallb (fun x => negb (x =? c)) s = true -> ~ In c s.
Proof.
  intros c s H Hin. rewrite forallb_forall in H. specialize (H c Hin).
  rewrite Z.eqb_refl in H. discriminate.
Qed.

Lemma call_groq_retries_witness :
  lit "k" <> []
  /\ call_groq_chat (lit "k") flaky_post = (Ok (JStr (lit "[]")), failed_attempts 3 ++ [EPost 4])
  /\ (forall c tr, call_groq_chat (lit "k") flaky_post = (Ok c, tr) ->
       exists k, (k < 4)%nat
         /\ (forall j, (1 <= j <= k)%nat -> exists e, attempt_result (flaky_post (Z.of_nat j)) = Raise e)
         /\ attempt_result (flaky_post (Z.of_nat (S k))) = Ok c
         /\ truthy c = true
         /\ tr = failed_attempts k ++ [EPost (Z.of_nat (S k))]).
Proof.
  assert (Hk : lit "k" <> []) by discriminate.
  split; [exact Hk|]. split; [vm_compute; reflexivity|].
  exact (proj1 (proj2 (call_groq_retries (lit "k") flaky_post) Hk)).
Defined.

Lemma call_groq_error_body_returned_witness :
  call_groq_chat (lit "k") (fun _ => RReply (lit "{error}") (Some error_body))
  = (Ok (JStr (lit "{error}")), [EPost 1]).
Proof.
  apply (call_groq_error_body_returned (lit "k") (fun _ => RReply (lit "{error}") (Some error_body))
           (lit "{error}") (Some error_body)).
  - discriminate.
  - discriminate.
  - reflexivity.
  - right. unfold error_body. eexists. split; [reflexivity|]. split; vm_compute; reflexivity.
Defined.

Lemma extract_json_array_span_witness :
  extract_json_array loads12 (lit "Here: [1, 2] done") = Ok [JInt 1; JInt 2].
Proof.
  rewrite (proj2 (extract_json_array_span loads12 (lit "Here: [1, 2] done"))
             (lit "Here: ") (lit "1, 2") (lit " done")).
  - vm_compute. reflexivity.
  - vm_compute. reflexivity.
  - apply not_in_by_forallb. vm_compute. reflexivity.
  - apply not_in_by_forallb. vm_compute. reflexivity.
Defined.

Lemma service_reply_to_batch_witness :
  gresp_of loads12 (fst (call_groq_chat (lit "k") chat_post)) = GArray [JInt 1; JInt 2].
Proof.
  apply (service_reply_to_batch loads12 (lit "k") chat_post (lit "{...}") chat_body
           [(lit "message", JObj chat_message)] [] chat_message
           (lit "Here: ") (lit "1, 2") (lit " done")).
  - discriminate.
  - reflexivity.
  - vm_compute. reflexivity.
  - vm_compute. reflexivity.
  - vm_compute. reflexivity.
  - apply not_in_by_forallb. vm_compute. reflexivity.
  - apply not_in_by_forallb. vm_compute. reflexivity.
  - vm_compute. reflexivity.
Defined.

(* ------------------------------------------------------------------ *)
(** ** Question set-up of start_session *)

Lemma pystr_eqb_refl : forall a, pystr_eqb a a = true.
Proof. intros a. apply pystr_eqb_true. reflexivity. Qed.

Lemma filter_sig_nodup : forall rows sig,
  NoDup (map qr_signature rows) ->
  filter (fun r => pystr_eqb (qr_signature r) sig) rows = []
  \/ exists r, filter (fun r => pystr_eqb (qr_signature r) sig) rows = [r] /\ In r rows
               /\ qr_signature r = sig.
Proof.
  induction rows as [|x rows IH]; intros sig Hnd; [left; reflexivity|].
  inversion Hnd as [|? ? Hn Hnd']; subst. cbn [filter].
  destruct (pystr_eqb (qr_signature x) sig) eqn:E.
  - right. exists x. apply pystr_eqb_true in E.
    destruct (IH sig Hnd') as [H|[y [Hy [Hin Hs]]]].
    + rewrite H. split; [reflexivity|]. split; [left; reflexivity|exact E].
    + exfalso. apply Hn. rewrite E, <- Hs. apply in_map. exact Hin.
  - destruct (IH sig Hnd') as [H|[y [Hy [Hin Hs]]]]; [left; exact H|].
    right. exists y. split; [exact Hy|]. split; [right; exact Hin|exact Hs].
Qed.

Lemma filter_sig_none : forall rows sig,
  filter (fun r => pystr_eqb (qr_signature r) sig) rows = [] ->
  ~ In sig (map qr_signature rows).
Proof.
  intros rows sig H Hin. apply in_map_iff in Hin as [r [Hr Hin]].
  assert (In r (filter (fun r => pystr_eqb (qr_signature r) sig) rows)).
  { apply filter_In. split; [exact Hin|]. apply pystr_eqb_true. exact Hr. }
  rewrite H in H0. destruct H0.
Qed.

(** The invariant of the question set-up. *)
Lemma get_or_create_inv : forall t sig mk,
  NoDup (map qr_signature (qt_rows t)) ->
  qr_signature (mk (qt_next t)) = sig ->
  exists r t1, get_or_create t sig mk = Ok (r, t1)
    /\ In r (qt_rows t1) /\ incl (qt_rows t) (qt_rows t1)
    /\ NoDup (map qr_signature (qt_rows t1))
    /\ (filter (fun x => pystr_eqb (qr_signature x) sig) (qt_rows t1) = [r]).
Proof.
  intros t sig mk Hnd Hmk. unfold get_or_create.
  destruct (filter_sig_nodup (qt_rows t) sig Hnd) as [H|[r [Hr [Hin Hs]]]].
  - rewrite H. do 2 eexists. split; [reflexivity|]. cbn [qt_rows].
    split; [apply in_or_app; right; left; reflexivity|].
    split; [intros x Hx; apply in_or_app; left; exact Hx|].
    split.
    + rewrite map_app. cbn [map]. apply NoDup_app; [exact Hnd|repeat constructor; intros []|].
      intros x Hx Hx'. destruct Hx' as [<-|[]]. apply (filter_sig_none _ _ H). rewrite Hmk in Hx. exact Hx.
    + rewrite filter_app, H. cbn [filter]. rewrite Hmk, pystr_eqb_refl. reflexivity.
  - rewrite Hr. do 2 eexists. split; [reflexivity|].
    split; [exact Hin|]. split; [apply incl_refl|]. split; [exact Hnd|exact Hr].
Qed.

Lemma fix_role_rows : forall t r raw_role,
  qt_rows (fix_role t r raw_role) = qt_rows t \/
  qt_rows (fix_role t r raw_role) = map (fix_row raw_role (qr_id r)) (qt_rows t).
Proof.
  intros t r raw_role. unfold fix_role. destruct (pystr_eqb (qr_role r) raw_role);
    [left; reflexivity|right; reflexivity].
Qed.

Lemma fix_row_sig : forall raw id x, qr_signature (fix_row raw id x) = qr_signature x.
Proof. intros raw id x. unfold fix_row. destruct (qr_id x =? id); reflexivity. Qed.

Lemma fix_row_id : forall raw id x, qr_id (fix_row raw id x) = qr_id x.
Proof. intros raw id x. unfold fix_row. destruct (qr_id x =? id); reflexivity. Qed.

Lemma fix_role_sigs : forall t r raw,
  map qr_signature (qt_rows (fix_role t r raw)) = map qr_signature (qt_rows t).
Proof.
  intros t r raw. destruct (fix_role_rows t r raw) as [H|H]; rewrite H; [reflexivity|].
  rewrite map_map. apply map_ext. apply fix_row_sig.
Qed.

(** After [fix_role], a row with the role [raw] keeps it, and [r]'s row has it. *)
Lemma fix_role_keeps : forall t r raw x,
  In x (qt_rows t) -> qr_role x = raw ->
  exists y, In y (qt_rows (fix_role t r raw)) /\ qr_id y = qr_id x /\ qr_role y = raw.
Proof.
  intros t r raw x Hin Hx. destruct (fix_role_rows t r raw) as [H|H]; rewrite H.
  - exists x. split; [exact Hin|split; [reflexivity|exact Hx]].
  - exists (fix_row raw (qr_id r) x). split; [apply in_map; exact Hin|].
    split; [apply fix_row_id|]. unfold fix_row. destruct (qr_id x =? qr_id r); [reflexivity|exact Hx].
Qed.

Lemma fix_role_sets : forall t r raw,
  In r (qt_rows t) ->
  exists y, In y (qt_rows (fix_role t r raw)) /\ qr_id y = qr_id r /\ qr_role y = raw.
Proof.
  intros t r raw Hin. unfold fix_role. destruct (pystr_eqb (qr_role r) raw) eqn:E.
  - exists r. split; [exact Hin|split; [reflexivity|apply pystr_eqb_true; exact E]].
  - cbn [qt_rows]. exists (fix_row raw (qr_id r) r). split; [apply in_map; exact Hin|].
    unfold fix_row. rewrite Z.eqb_refl. split; reflexivity.
Qed.

Lemma setup_step : forall raw t ids sig mk,
  setup_inv raw t ids -> qr_signature (mk (qt_next t)) = sig ->
  exists r t1, get_or_create t sig mk = Ok (r, t1)
    /\ setup_inv raw (fix_role t1 r raw) ids
    /\ setup_inv raw (fix_role t1 r raw) (ids ++ [qr_id r]).
Proof.
  intros raw t ids sig mk [Hnd Hf] Hmk.
  destruct (get_or_create_inv t sig mk Hnd Hmk) as (r & t1 & Hg & Hin & Hinc & Hnd1 & _).
  exists r, t1. split; [exact Hg|].
  assert (Hnd2 : NoDup (map qr_signature (qt_rows (fix_role t1 r raw))))
    by (rewrite fix_role_sigs; exact Hnd1).
  assert (Hf2 : Forall (fun i => exists y, In y (qt_rows (fix_role t1 r raw)) /\ qr_id y = i
                                       /\ qr_role y = raw) ids).
  { apply Forall_forall. intros i Hi. rewrite Forall_forall in Hf.
    destruct (Hf i Hi) as [x [Hx [Hxi Hxr]]].
    destruct (fix_role_keeps t1 r raw x (Hinc x Hx) Hxr) as [y [Hy [Hyi Hyr]]].
    exists y. split; [exact Hy|split; [congruence|exact Hyr]]. }
  split; [split; [exact Hnd2|exact Hf2]|].
  split; [exact Hnd2|]. apply Forall_app. split; [exact Hf2|].
  constructor; [|constructor]. apply fix_role_sets. exact Hin.
Qed.

Lemma zlen_snoc {A : Type} (l : list A) x : zlen (l ++ [x]) = zlen l + 1.
Proof. unfold zlen. rewrite length_app. cbn [length]. lia. Qed.

Lemma llm_loop_inv : forall raw n qs ids t,
  setup_inv raw t ids -> zlen ids <= n ->
  exists ids' t', llm_loop raw n qs ids t = Ok (ids', t')
    /\ setup_inv raw t' ids' /\ zlen ids' <= n.
Proof.
  intros raw n qs. induction qs as [|q qs IH]; intros ids t Hi Hl; cbn [llm_loop].
  - exists ids, t. split; [reflexivity|split; assumption].
  - destruct (n <=? zlen ids) eqn:En; [exists ids, t; split; [reflexivity|split; assumption]|].
    apply Z.leb_gt in En.
    destruct (null (strip (q_text q))); [apply IH; assumption|].
    match goal with |- context [get_or_create t ?s ?m] =>
      destruct (setup_step raw t ids s m Hi eq_refl) as (r & t1 & Hg & _ & Hi2) end.
    rewrite Hg. apply IH; [exact Hi2|rewrite zlen_snoc; lia].
Qed.

Lemma stub_loop_inv : forall raw n fuel ids t,
  setup_inv raw t ids -> zlen ids <= n ->
  exists ids' t', stub_loop raw n fuel ids t = Ok (ids', t')
    /\ setup_inv raw t' ids' /\ zlen ids' <= n.
Proof.
  intros raw n fuel. induction fuel as [|f IH]; intros ids t Hi Hl; cbn [stub_loop].
  - exists ids, t. split; [reflexivity|split; assumption].
  - destruct (zlen ids <? n) eqn:En; [|exists ids, t; split; [reflexivity|split; assumption]].
    apply Z.ltb_lt in En.
    destruct (null (strip (s_text (views_question_stub raw 2)))); [apply IH; assumption|].
    match goal with |- context [get_or_create t ?s ?m] =>
      destruct (setup_step raw t ids s m Hi eq_refl) as (r & t1 & Hg & Hi1 & Hi2) end.
    rewrite Hg. destruct (existsb (Z.eqb (qr_id r)) ids).
    + apply IH; assumption.
    + apply IH; [exact Hi2|rewrite zlen_snoc; lia].
Qed.

Lemma number_from_fst {A : Type} : forall (l : list A) i,
  map fst (number_from (Z.of_nat i) l) = map Z.of_nat (seq i (length l)).
Proof.
  induction l as [|x l IH]; intros i; [reflexivity|].
  cbn [number_from map fst length seq]. f_equal.
  replace (Z.of_nat i + 1) with (Z.of_nat (S i)) by lia. apply IH.
Qed.

Lemma number_from_in {A : Type} : forall (l : list A) i k x, In (k, x) (number_from i l) -> In x l.
Proof.
  induction l as [|y l IH]; intros i k x H; [destruct H|].
  destruct H as [H|H]; [injection H as _ <-; left; reflexivity|right; eapply IH; eauto].
Qed.

Lemma number_from_length {A : Type} : forall (l : list A) i, length (number_from i l) = length l.
Proof. induction l as [|y l IH]; intros i; [reflexivity|]. cbn. f_equal. apply IH. Qed.

(** X15: [start_session] (with [n >= 0] and a question table whose
    signatures are distinct) attaches at most [n] questions, with answer
    indices 1, 2, ... in order; each is a row of the table whose role is
    the form's raw role, and the table's signatures stay distinct. *)
Theorem start_session_setup :
  forall raw_role n gen t,
    0 <= n -> NoDup (map qr_signature (qt_rows t)) ->
    exists answers t',
      start_session_questions raw_role n gen t = Ok (answers, t')
      /\ (length answers <= Z.to_nat n)%nat
      /\ map fst answers = map Z.of_nat (seq 1 (length answers))
      /\ (forall i qid, In (i, qid) answers ->
            exists r, In r (qt_rows t') /\ qr_id r = qid /\ qr_role r = raw_role)
      /\ NoDup (map qr_signature (qt_rows t')).
Proof.
  intros raw_role n gen t Hn Hnd. unfold start_session_questions.
  destruct (llm_loop_inv raw_role n (match gen with Ok l => l | Raise _ => [] end) [] t)
    as (ids & t1 & H1 & Hi1 & Hl1); [split; [exact Hnd|constructor]|unfold zlen; simpl; lia|].
  rewrite H1.
  destruct (stub_loop_inv raw_role n (Z.to_nat (Z.max 50 (n * 10))) ids t1 Hi1 Hl1)
    as (ids' & t2 & H2 & [Hnd2 Hf2] & Hl2).
  rewrite H2. exists (number_from 1 ids'), t2. split; [reflexivity|].
  unfold zlen in Hl2. rewrite number_from_length.
  split; [lia|]. split; [apply (number_from_fst ids' 1)|].
  split; [|exact Hnd2].
  intros i qid Hin. apply number_from_in in Hin. rewrite Forall_forall in Hf2. apply Hf2, Hin.
Qed.

Lemma lstrip_in : forall s c, In c s -> is_space c = false -> In c (lstrip s).
Proof.
  induction s as [|x s IH]; intros c H Hc; [destruct H|]. cbn [lstrip].
  destruct (is_space x) eqn:Ex; [|exact H].
  destruct H as [->|H]; [congruence|apply IH; assumption].
Qed.

Lemma strip_nonempty : forall s c, In c s -> is_space c = false -> null (strip s) = false.
Proof.
  intros s c H Hc. unfold strip.
  assert (Hin : In c (rev (lstrip (rev (lstrip s))))).
  { rewrite <- in_rev. apply lstrip_in; [|exact Hc]. rewrite <- in_rev. apply lstrip_in; assumption. }
  destruct (rev (lstrip (rev (lstrip s)))); [destruct Hin|reflexivity].
Qed.

Lemma views_stub_text_nonempty : forall raw, null (strip (s_text (views_question_stub raw 2))) = false.
Proof.
  intros raw. apply (strip_nonempty _ 40); [|reflexivity].
  cbn [s_text views_question_stub]. left. reflexivity.
Qed.

Lemma filter_fix_row : forall raw id sig rows,
  filter (fun x => pystr_eqb (qr_signature x) sig) (map (fix_row raw id) rows)
  = map (fix_row raw id) (filter (fun x => pystr_eqb (qr_signature x) sig) rows).
Proof.
  intros raw id sig rows. induction rows as [|x rows IH]; [reflexivity|].
  cbn [map filter]. rewrite fix_row_sig. destruct (pystr_eqb (qr_signature x) sig);
    [cbn [map]; rewrite IH; reflexivity|exact IH].
Qed.

Lemma fix_role_filter : forall t r raw sig y,
  filter (fun x => pystr_eqb (qr_signature x) sig) (qt_rows t) = [y] ->
  exists y', filter (fun x => pystr_eqb (qr_signature x) sig) (qt_rows (fix_role t r raw)) = [y']
             /\ qr_id y' = qr_id y.
Proof.
  intros t r raw sig y H. destruct (fix_role_rows t r raw) as [E|E]; rewrite E.
  - exists y. split; [exact H|reflexivity].
  - rewrite filter_fix_row, H. exists (fix_row raw (qr_id r) y). split; [reflexivity|apply fix_row_id].
Qed.

Lemma stub_loop_stuck : forall raw n fuel t y,
  filter (fun x => pystr_eqb (qr_signature x) (signature_of_text (strip (s_text (views_question_stub raw 2)))))
    (qt_rows t) = [y] ->
  exists t', stub_loop raw n fuel [qr_id y] t = Ok ([qr_id y], t').
Proof.
  intros raw n fuel. induction fuel as [|f IH]; intros t y H; cbn [stub_loop]; [eexists; reflexivity|].
  destruct (zlen [qr_id y] <? n); [|eexists; reflexivity].
  rewrite views_stub_text_nonempty. unfold get_or_create at 1. rewrite H.
  cbn [existsb]. rewrite Z.eqb_refl. cbn [orb].
  destruct (fix_role_filter t y raw _ y H) as [y' [H' Hid]].
  rewrite <- Hid. apply IH. exact H'.
Qed.

(** X16: when the generator returns no item (an empty list or an
    exception), [start_session] attaches exactly one question, whatever
    [n >= 1]: the stub of [views.py] is deterministic, so every later stub
    has the same signature and is skipped. *)
Theorem start_session_no_llm_one_question :
  forall raw_role n gen t,
    (gen = Ok [] \/ exists e, gen = Raise e) ->
    1 <= n -> NoDup (map qr_signature (qt_rows t)) ->
    exists qid t', start_session_questions raw_role n gen t = Ok ([(1, qid)], t').
Proof.
  intros raw_role n gen t Hg Hn Hnd. unfold start_session_questions.
  replace (match gen with Ok l => l | Raise _ => [] end) with (@nil qitem)
    by (destruct Hg as [->|[e ->]]; reflexivity).
  cbn [llm_loop].
  replace (Z.to_nat (Z.max 50 (n * 10))) with (S (Z.to_nat (Z.max 50 (n * 10)) - 1)) by lia.
  cbn [stub_loop]. replace (zlen (@nil Z) <? n) with true by (symmetry; apply Z.ltb_lt; unfold zlen; simpl; lia).
  rewrite views_stub_text_nonempty.
  match goal with |- context [get_or_create t ?s ?m] =>
    destruct (get_or_create_inv t s m Hnd eq_refl) as (r & t1 & Hgc & _ & _ & _ & Hf) end.
  rewrite Hgc. cbn [existsb app].
  destruct (fix_role_filter t1 r raw_role _ r Hf) as [y' [H' Hid]].
  destruct (stub_loop_stuck raw_role n (Z.to_nat (Z.max 50 (n * 10)) - 1) _ y' H') as [t' Ht'].
  rewrite Hid in Ht'. rewrite Ht'. exists (qr_id r), t'. reflexivity.
Qed.

Lemma start_session_setup_witness :
  exists answers t',
    start_session_questions (lit "tech") 3 (Ok session_items) reuse_table = Ok (answers, t')
    /\ answers = [(1, 1); (2, 2); (3, 3)]
    /\ (length answers <= Z.to_nat 3)%nat
    /\ map fst answers = map Z.of_nat (seq 1 (length answers))
    /\ (forall i qid, In (i, qid) answers ->
          exists r, In r (qt_rows t') /\ qr_id r = qid /\ qr_role r = lit "tech")
    /\ NoDup (map qr_signature (qt_rows t')).
Proof.
  destruct (start_session_setup (lit "tech") 3 (Ok session_items) reuse_table
              ltac:(lia) ltac:(vm_compute; constructor; [intros []|constructor]))
    as (answers & t' & E & Hrest).
  exists answers, t'. split; [exact E|]. split; [|exact Hrest].
  vm_compute in E. injection E as <- _. reflexivity.
Defined.

Lemma start_session_no_llm_one_question_witness :
  exists qid t', start_session_questions (lit "beh") 4 (Raise RuntimeError) empty_table
                 = Ok ([(1, qid)], t').
Proof.
  apply (start_session_no_llm_one_question (lit "beh") 4 (Raise RuntimeError) empty_table).
  - right. exists RuntimeError. reflexivity.
  - lia.
  - vm_compute. constructor.
Defined.

(* ------------------------------------------------------------------ *)
(** ** Role routing of the interview form *)

Lemma views_stub_text : forall role d,
  s_text (views_question_stub role d)
  = lit "(AI stub) " ++ role ++ lit " question (difficulty " ++ z_to_str d ++ lit "): "
    ++ assoc_get role_instructions (lower role) (lit "Provide a general question related to the role.").
Proof. reflexivity. Qed.

(** X17: the four roles of the interview form reach the generator as the
    Technical, HR, Aptitude and Behavioral keys, but the stub of [views.py]
    looks the raw role up under [aptitude] and [behavioral], so for [apt]
    and [beh] it gives the generic instruction at every difficulty. *)
Theorem form_roles_routing :
  forall d,
    map (fun r => normalize_role_key (role_for_prompt (lit r))) ["tech"; "hr"; "apt"; "beh"]%string
    = [RTechnical; RHr; RAptitude; RBeh]
    /\ s_text (views_question_stub (lit "tech") d)
       = lit "(AI stub) " ++ lit "tech" ++ lit " question (difficulty " ++ z_to_str d ++ lit "): "
         ++ lit "Explain a core technical concept or solve a coding problem."
    /\ s_text (views_question_stub (lit "hr") d)
       = lit "(AI stub) " ++ lit "hr" ++ lit " question (difficulty " ++ z_to_str d ++ lit "): "
         ++ lit "Describe how to handle workplace scenarios or HR policies."
    /\ s_text (views_question_stub (lit "apt") d)
       = lit "(AI stub) " ++ lit "apt" ++ lit " question (difficulty " ++ z_to_str d ++ lit "): "
         ++ lit "Provide a general question related to the role."
    /\ s_text (views_question_stub (lit "beh") d)
       = lit "(AI stub) " ++ lit "beh" ++ lit " question (difficulty " ++ z_to_str d ++ lit "): "
         ++ lit "Provide a general question related to the role.".
Proof.
  intros d. split; [vm_compute; reflexivity|].
  rewrite !views_stub_text.
  split; [f_equal; f_equal; f_equal; f_equal; f_equal; vm_compute; reflexivity|].
  split; [f_equal; f_equal; f_equal; f_equal; f_equal; vm_compute; reflexivity|].
  split; f_equal; f_equal; f_equal; f_equal; f_equal; vm_compute; reflexivity.
Qed.

(* ------------------------------------------------------------------ *)
(** ** Skipping and answering *)

Lemma next_answer_snoc : forall answers r,
  next_answer (answers ++ [r])
  = if ar_processed r then next_answer answers
    else match next_answer answers with
         | None => Some r
         | Some b => if ar_index r <? ar_index b then Some r else Some b
         end.
Proof.
  intros answers r. unfold next_answer. rewrite fold_left_app. cbn [fold_left].
  destruct (fold_left _ answers None); reflexivity.
Qed.

(** X18: [skip_question] never moves the session on: when [next_question]
    shows an answer, a skip either raises [IntegrityError] (an answer with
    index [current_index + 1] exists already) or leaves [next_question]
    showing the same answer, since the appended [Skipped] answer has a
    higher index. *)
Theorem skip_never_advances :
  forall role qs cur answers a cur1,
    next_question cur answers = (Some a, cur1) ->
    match skip_question role qs cur1 answers with
    | Ok (cur2, answers') => fst (next_question cur2 answers') = Some a
    | Raise e => e = IntegrityError
                 /\ exists b, In b answers /\ ar_index b = cur1 + 1
    end.
Proof.
  intros role qs cur answers a cur1 Hq. unfold next_question in Hq.
  destruct (next_answer answers) as [a0|] eqn:Ha; [|discriminate].
  injection Hq as <- <-. unfold skip_question.
  destruct (find _ qs) as [q|]; [|unfold next_question; rewrite Ha; reflexivity].
  destruct (existsb (fun b => ar_index b =? ar_index a0 + 1) answers) eqn:E.
  - split; [reflexivity|]. apply existsb_exists in E as [b [Hb Hi]].
    exists b. split; [exact Hb|apply Z.eqb_eq; exact Hi].
  - unfold next_question. rewrite next_answer_snoc. cbn [ar_processed ar_index]. rewrite Ha.
    replace (ar_index a0 + 1 <? ar_index a0) with false by (symmetry; apply Z.ltb_ge; lia).
    reflexivity.
Qed.

Lemma skip_never_advances_witness :
  next_question 0 [arow_at 1 1; arow_at 2 2] = (Some (arow_at 1 1), 1)
  /\ skip_question (lit "tech") bank 1 [arow_at 1 1; arow_at 2 2] = Raise IntegrityError
  /\ exists b, In b [arow_at 1 1; arow_at 2 2] /\ ar_index b = 1 + 1.
Proof.
  assert (Hq : next_question 0 [arow_at 1 1; arow_at 2 2] = (Some (arow_at 1 1), 1))
    by (vm_compute; reflexivity).
  split; [exact Hq|]. split; [vm_compute; reflexivity|].
  pose proof (skip_never_advances (lit "tech") bank 0 [arow_at 1 1; arow_at 2 2] _ _ Hq) as H.
  destruct (skip_question (lit "tech") bank 1 [arow_at 1 1; arow_at 2 2]) as [[c l]|e].
  - exists (arow_at 2 2). split; [right; left; reflexivity|reflexivity].
  - exact (proj2 H).
Defined.

(** X19: [AnswerForm] declares no field, so [submit_answer] scores every
    submission as an empty answer, whatever was posted: the answer gets an
    empty text, score 0, the no-answer feedback and tips, and is marked
    processed. *)
Theorem submit_answer_ignores_post :
  forall nlp tips_client post q a,
    let a' := submit_answer nlp tips_client post q a in
    ar_text a' = [] /\ ar_score a' = Some 0 /\ ar_feedback a' = no_answer_feedback
    /\ ar_tips a' = Some no_answer_tips /\ ar_processed a' = true.
Proof.
  intros nlp tips_client post q a a'. subst a'. unfold submit_answer.
  assert (Hc : cleaned_data post = []).
  { unfold cleaned_data, answer_form_fields. induction post as [|kv post IH]; [reflexivity|exact IH]. }
  rewrite Hc. cbn [assoc_get]. change (strip []) with (@nil Z).
  unfold analyze_transcript. cbn [null fst ev_score ev_feedback ev_tips
    ar_text ar_score ar_feedback ar_tips ar_processed].
  repeat split; reflexivity.
Qed.

(* ------------------------------------------------------------------ *)
(** ** The session summary *)

Lemma dict_get_four : forall a b c e,
  let d := [(k_strengths, a); (k_improvements, b); (k_overall_tip, c); (k_resources, e)] in
  dict_get d k_strengths = Some a /\ dict_get d k_improvements = Some b
  /\ dict_get d k_overall_tip = Some c /\ dict_get d k_resources = Some e.
Proof. intros a b c e d. subst d. repeat split; vm_compute; reflexivity. Qed.

Lemma get_or_some : forall d k v x, dict_get d k = Some v -> get_or d k x = v.
Proof. intros d k v x H. unfold get_or. rewrite H. reflexivity. Qed.

Lemma feedback_lists_ok : forall rows,
  (forall r, In r rows -> sr_question_text r <> None) ->
  exists st im, feedback_lists rows = Ok (st, im).
Proof.
  induction rows as [|r rows IH]; intros H; [exists [], []; reflexivity|].
  cbn [feedback_lists].
  destruct (sr_question_text r) as [qt|] eqn:Eq; [|exfalso; apply (H r); [left; reflexivity|exact Eq]].
  destruct IH as [st [im Hr]]; [intros x Hx; apply H; right; exact Hx|].
  rewrite Hr. cbn [pbind]. eexists. eexists. reflexivity.
Qed.

Lemma feedback_lists_raise : forall rows,
  (exists r, In r rows /\ sr_question_text r = None) ->
  feedback_lists rows = Raise AttributeError.
Proof.
  induction rows as [|r rows IH]; intros [x [Hx Hn]]; [destruct Hx|].
  cbn [feedback_lists]. destruct (sr_question_text r) as [qt|] eqn:Eq; [|reflexivity].
  destruct Hx as [->|Hx]; [congruence|].
  rewrite IH by (exists x; split; assumption). reflexivity.
Qed.

(** X20: [session_summary] shows the four values of the
    [generate_session_suggestions] result, for the session's answers, and
    never its own heuristic lists; it raises [AttributeError] when an
    answer has no question. *)
Theorem summary_suggestions_from_service :
  forall sclient rows,
    ((forall r, In r rows -> sr_question_text r <> None) ->
     exists d v1 v2 v3 v4,
       generate_session_suggestions sclient (map summary_payload rows) = Ok d
       /\ summary_suggestions sclient rows = Ok (v1, v2, v3, v4)
       /\ dict_get d k_strengths = Some v1 /\ dict_get d k_improvements = Some v2
       /\ dict_get d k_overall_tip = Some v3 /\ dict_get d k_resources = Some v4)
    /\ ((exists r, In r rows /\ sr_question_text r = None) ->
        summary_suggestions sclient rows = Raise AttributeError).
Proof.
  intros sclient rows. split.
  - intros H. destruct (feedback_lists_ok rows H) as [st [im Hf]].
    unfold summary_suggestions. rewrite Hf. cbn [pbind].
    assert (Hp : forall a, In a (map summary_payload rows) -> a_question_text a <> None).
    { intros a Ha. apply in_map_iff in Ha as [r [<- Hr]]. apply H, Hr. }
    unfold generate_session_suggestions.
    destruct (sclient (map prompt_item (map summary_payload rows))) as [|kv].
    + assert (Hs : forall ge k a, In a (firstn k (sort_by ge (map summary_payload rows)))
                                  -> a_question_text a <> None).
      { intros ge k a Ha. apply Hp. apply (sort_by_in ge). eapply in_firstn_in. exact Ha. }
      destruct (heads120_ok _ (Hs (fun y x => x <=? y) 3%nat)) as [r1 [H1 _]].
      destruct (heads120_ok _ (Hs (fun y x => y <=? x) 5%nat)) as [r2 [H2 _]].
      unfold sort_desc, sort_asc. rewrite H1, H2. cbn [null].
      destruct (dict_get_four (JArr r1) (JArr r2) (JStr fallback_tip) (JArr fallback_resources))
        as (G1 & G2 & G3 & G4).
      do 5 eexists. split; [reflexivity|]. split.
      { rewrite (get_or_some _ _ _ _ G1), (get_or_some _ _ _ _ G2),
                (get_or_some _ _ _ _ G3), (get_or_some _ _ _ _ G4). reflexivity. }
      repeat split; assumption.
    + cbn [null].
      destruct (dict_get_four (get_or kv k_strengths (JArr [])) (get_or kv k_improvements (JArr []))
                  (get_or kv k_overall_tip (JStr [])) (get_or kv k_resources (JArr [])))
        as (G1 & G2 & G3 & G4).
      do 5 eexists. split; [reflexivity|]. split.
      { rewrite (get_or_some _ _ _ _ G1), (get_or_some _ _ _ _ G2),
                (get_or_some _ _ _ _ G3), (get_or_some _ _ _ _ G4). reflexivity. }
      repeat split; assumption.
  - intros H. unfold summary_suggestions. rewrite (feedback_lists_raise rows H). reflexivity.
Qed.

Lemma summary_suggestions_from_service_witness :
  exists d v1 v2 v3 v4,
    generate_session_suggestions (fun _ => SRaise) (map summary_payload summary_rows) = Ok d
    /\ summary_suggestions (fun _ => SRaise) summary_rows = Ok (v1, v2, v3, v4)
    /\ dict_get d k_strengths = Some v1 /\ dict_get d k_improvements = Some v2
    /\ dict_get d k_overall_tip = Some v3 /\ dict_get d k_resources = Some v4.
Proof.
  apply (proj1 (summary_suggestions_from_service (fun _ => SRaise) summary_rows)).
  intros r [<-|[<-|[]]]; discriminate.
Defined.
